(** * Seed-database generator for Homarr (tools/generate-seed-db.py)

    A shallow embedding of the generator script and the properties of the
    artefacts it leaves behind: the seeded SQLite database and the plaintext
    bootstrap key file.

    The script is glue over three libraries of the Python runtime: [pathlib]
    (directories and files), [sqlite3] (the database) and [bcrypt] (the
    password hash).  The first two are modelled here by small executable
    definitions; [bcrypt] is an interface whose implementation is supplied by
    the environment ([bcrypt_module]).  The functions of the script itself
    ([create_tables], [insert_onboarding_complete], [insert_service_user],
    [insert_bootstrap_api_key], [insert_server_settings], [main]) follow the
    source statement by statement.

    What the model covers.  A world lists every file and directory once,
    under the parts of its path: symbolic links are not modelled, a [..]
    part is not resolved, and a relative path is not related to an absolute
    one.  The properties that speak of files are therefore stated for plain
    paths ([plain_paths]): no [..] part, and both given in the same way.
    Files and directories carry the one permission that matters to the
    script, whether they can be written.  Of SQLite the model has tables with
    the column constraints the script declares, the rollback journal beside
    the database file, and the rule of the Python module that an [INSERT]
    opens a transaction while a [CREATE TABLE] is stored at once; indexes,
    views and triggers are not modelled, and no property is stated about a
    database that holds any. *)

From Stdlib Require Import ZArith NArith String Ascii List.
From Stdlib.Strings Require Import Byte.
From stdpp Require Import gmap strings list fin_maps pretty.

Local Open Scope string_scope.
Local Open Scope list_scope.

(** ** Python values: [str], [bytes], exceptions *)

(** A Python [str] is represented by the sequence of bytes of its UTF-8
    encoding; [bytes] is a list of bytes. *)
Abbreviation bytes := (list byte).

#[global] Instance byte_eq_dec : EqDecision byte := Byte.byte_eq_dec.

Inductive exn : Type :=
  | FileNotFoundError
  | FileExistsError
  | NotADirectoryError
  | IsADirectoryError
  | PermissionError
  | RecursionError
  | UnicodeDecodeError
  | ValueError
  | OperationalError
  | IntegrityError
  | ProgrammingError
  | DatabaseError.

Inductive result (A : Type) : Type :=
  | Ok (a : A)
  | Raise (e : exn).
Arguments Ok {A} a.
Arguments Raise {A} e.

#[global] Instance exn_eq_dec : EqDecision exn.
Proof. solve_decision. Defined.

Module Utf8.

Definition in_range (lo hi : N) (b : byte) : bool :=
  (lo <=? Byte.to_N b)%N && (Byte.to_N b <=? hi)%N.

Definition cont (b : byte) : bool := in_range 0x80 0xBF b.

(** Well-formed UTF-8 byte sequences (the Unicode standard's table of
    well-formed sequences: no overlong forms, no surrogates, nothing
    above U+10FFFF). *)
Fixpoint valid (bs : bytes) : bool :=
  match bs with
  | [] => true
  | b0 :: t0 =>
    let n0 := Byte.to_N b0 in
    if (n0 <? 0x80)%N then valid t0
    else if (n0 <? 0xC2)%N then false
    else if (n0 <? 0xE0)%N then
      match t0 with
      | b1 :: t1 => cont b1 && valid t1
      | _ => false
      end
    else if (n0 <? 0xF0)%N then
      match t0 with
      | b1 :: b2 :: t2 =>
        (if (n0 =? 0xE0)%N then in_range 0xA0 0xBF b1
         else if (n0 =? 0xED)%N then in_range 0x80 0x9F b1
         else cont b1)
        && cont b2 && valid t2
      | _ => false
      end
    else if (n0 <? 0xF5)%N then
      match t0 with
      | b1 :: b2 :: b3 :: t3 =>
        (if (n0 =? 0xF0)%N then in_range 0x90 0xBF b1
         else if (n0 =? 0xF4)%N then in_range 0x80 0x8F b1
         else cont b1)
        && cont b2 && cont b3 && valid t3
      | _ => false
      end
    else false
  end.

(** [s.encode('utf-8')] *)
Definition encode (s : string) : bytes := list_byte_of_string s.

(** [b.decode('utf-8')] *)
Definition decode (b : bytes) : result string :=
  if valid b then Ok (string_of_list_byte b) else Raise UnicodeDecodeError.

(** The code points of a well-formed sequence (used by [json.dumps], which
    escapes everything outside ASCII). *)
Fixpoint codepoints (bs : bytes) : list N :=
  match bs with
  | [] => []
  | b0 :: t0 =>
    let n0 := Byte.to_N b0 in
    let low6 (b : byte) := N.land (Byte.to_N b) 0x3F in
    if (n0 <? 0x80)%N then n0 :: codepoints t0
    else if (n0 <? 0xE0)%N then
      match t0 with
      | b1 :: t1 => (N.land n0 0x1F * 64 + low6 b1)%N :: codepoints t1
      | _ => []
      end
    else if (n0 <? 0xF0)%N then
      match t0 with
      | b1 :: b2 :: t2 =>
        ((N.land n0 0x0F * 64 + low6 b1) * 64 + low6 b2)%N :: codepoints t2
      | _ => []
      end
    else
      match t0 with
      | b1 :: b2 :: b3 :: t3 =>
        (((N.land n0 0x07 * 64 + low6 b1) * 64 + low6 b2) * 64 + low6 b3)%N
          :: codepoints t3
      | _ => []
      end
  end.

End Utf8.

(** ** [json.dumps] and [json.loads] *)

Module Json.

(** The Python values [json.dumps] accepts; a [dict] keeps its keys in
    insertion order. *)
#[warnings="-register-all"] Inductive value : Type :=
  | JNone
  | JBool (b : bool)
  | JInt (z : Z)
  | JStr (s : string)
  | JList (l : list value)
  | JDict (kv : list (string * value)).

Definition hex_digit (n : N) : ascii :=
  ascii_of_N (if (n <? 10)%N then 48 + n else 87 + n).

Definition hex4 (n : N) : string :=
  String (hex_digit (N.land (N.shiftr n 12) 15))
    (String (hex_digit (N.land (N.shiftr n 8) 15))
       (String (hex_digit (N.land (N.shiftr n 4) 15))
          (String (hex_digit (N.land n 15)) EmptyString))).

(** One code point, as [json.dumps] writes it with [ensure_ascii=True]. *)
Definition escape (c : N) : string :=
  if (c =? 34)%N then "\" +:+ String (ascii_of_N 34) EmptyString
  else if (c =? 92)%N then "\\"
  else if (c =? 8)%N then "\b"
  else if (c =? 12)%N then "\f"
  else if (c =? 10)%N then "\n"
  else if (c =? 13)%N then "\r"
  else if (c =? 9)%N then "\t"
  else if ((32 <=? c) && (c <? 127))%N then String (ascii_of_N c) EmptyString
  else if (c <? 0x10000)%N then "\u" +:+ hex4 c
  else
    let v := (c - 0x10000)%N in
    "\u" +:+ hex4 (0xD800 + N.shiftr v 10) +:+
    "\u" +:+ hex4 (0xDC00 + N.land v 0x3FF).

Definition quote : string := String (ascii_of_N 34) EmptyString.

Definition dumps_str (s : string) : string :=
  quote +:+ String.concat EmptyString (map escape (Utf8.codepoints (Utf8.encode s)))
        +:+ quote.

Definition dumps_Z (z : Z) : string :=
  match z with
  | Z0 => "0"
  | Zpos p => pretty (N.pos p)
  | Zneg p => "-" +:+ pretty (N.pos p)
  end.

(** [json.dumps(v)] with the default separators [", "] and [": "]. *)
Fixpoint dumps (v : value) : string :=
  match v with
  | JNone => "null"
  | JBool true => "true"
  | JBool false => "false"
  | JInt z => dumps_Z z
  | JStr s => dumps_str s
  | JList l => "[" +:+ String.concat ", " (map dumps l) +:+ "]"
  | JDict kv =>
    "{" +:+ String.concat ", "
              (map (fun '(k, x) => dumps_str k +:+ ": " +:+ dumps x) kv)
        +:+ "}"
  end.

(** [json.loads], for documents without [\u] escapes and without
    fractions or exponents: the reader of what [dumps] writes for the
    documents of the script. *)









End Json.

(** ** [sqlite3]: tables, rows and the two kinds of statement the script runs *)

Module Sql.

Inductive value : Type :=
  | Null
  | Text (s : string)
  | Integer (z : Z).

#[global] Instance value_eq_dec : EqDecision value.
Proof. solve_decision. Defined.

Inductive affinity : Type := TEXT | INTEGER.

(** A column definition of a [CREATE TABLE] statement. *)
Record column : Type := Column {
  col_name : string;
  col_type : affinity;
  col_primary_key : bool;
  col_not_null : bool;
  col_unique : bool;
  col_default : option value;
  col_references : option (string * string)  (* REFERENCES t(c) ON DELETE CASCADE *)
}.

(** A stored row gives every column of its table a value, in the order of
    the table's columns. *)
Definition row := list (string * value).

Record table : Type := Table {
  tbl_columns : list column;
  tbl_rows : list row
}.

(** The tables of a database file, in creation order. *)
Definition database := list (string * table).

(** An expression of a [VALUES] list: a literal or a [?] placeholder. *)
Inductive expr : Type :=
  | Lit (v : value)
  | Param.

Inductive statement : Type :=
  | CreateTableIfNotExists (name : string) (cols : list column)
  | InsertInto (name : string) (cols : list string) (vals : list expr).

(** SQLite compares the names of tables and columns without regard to the
    case of ASCII letters. *)
Definition fold_case (c : ascii) : ascii :=
  let n := N_of_ascii c in
  if ((65 <=? n) && (n <=? 90))%N then ascii_of_N (n + 32) else c.

Fixpoint lower (s : string) : string :=
  match s with
  | EmptyString => EmptyString
  | String c s' => String (fold_case c) (lower s')
  end.

Definition same_name (a b : string) : bool := String.eqb (lower a) (lower b).

Fixpoint assoc {A : Type} (k : string) (l : list (string * A)) : option A :=
  match l with
  | [] => None
  | (k', a) :: l' => if same_name k k' then Some a else assoc k l'
  end.

Fixpoint update {A : Type} (k : string) (a : A) (l : list (string * A))
  : list (string * A) :=
  match l with
  | [] => []
  | (k', a') :: l' =>
    if same_name k k' then (k', a) :: l' else (k', a') :: update k a l'
  end.

(** Placeholders take the parameters of [execute] from left to right; the
    counts must agree. *)
Fixpoint bind_params (es : list expr) (ps : list value)
  : result (list value) :=
  match es, ps with
  | [], [] => Ok []
  | [], _ :: _ => Raise ProgrammingError
  | Lit v :: es', _ =>
    match bind_params es' ps with
    | Ok vs => Ok (v :: vs)
    | Raise e => Raise e
    end
  | Param :: _, [] => Raise ProgrammingError
  | Param :: es', p :: ps' =>
    match bind_params es' ps' with
    | Ok vs => Ok (p :: vs)
    | Raise e => Raise e
    end
  end.

(** The value a new row gets in column [c]: the one supplied for it, else
    the column's default, else NULL.  Values are stored as they are given
    (the script puts text in TEXT columns only). *)
Definition cell (given : list (string * value)) (c : column) : value :=
  match assoc (col_name c) given with
  | Some v => v
  | None =>
    match col_default c with
    | Some d => d
    | None => Null
    end
  end.

Definition not_null_ok (r : row) (c : column) : bool :=
  negb (col_not_null c)
  || negb (bool_decide (assoc (col_name c) r = Some Null)).

(** PRIMARY KEY and UNIQUE: no stored row has the same non-NULL value. *)
Definition unique_ok (rows : list row) (r : row) (c : column) : bool :=
  negb (col_primary_key c || col_unique c)
  || match assoc (col_name c) r with
     | Some Null | None => true
     | Some v =>
       forallb (fun r' => negb (bool_decide (assoc (col_name c) r' = Some v)))
               rows
     end.

Definition is_column (t : table) (n : string) : bool :=
  existsb (fun c => same_name n (col_name c)) (tbl_columns t).

(** The statement is well formed for the table: as many values as columns,
    and every column is one of the table (found out when the statement is
    prepared). *)
Definition fits (t : table) (cols : list string) (es : list expr) : bool :=
  (length cols =? length es)%nat && forallb (is_column t) cols.

(** The row is added when the constraints of the table allow it. *)
Definition insert_row (t : table) (cols : list string) (vals : list value)
  : result table :=
  let r := map (fun c => (col_name c, cell (combine cols vals) c))
               (tbl_columns t) in
  if negb (forallb (not_null_ok r) (tbl_columns t)) then
    Raise IntegrityError
  else if negb (forallb (unique_ok (tbl_rows t) r) (tbl_columns t)) then
    Raise IntegrityError
  else Ok (Table (tbl_columns t) (tbl_rows t ++ [r])).

(** [cursor.execute(statement, params)] on the database of a connection:
    the statement is prepared (a table or column that is missing is an
    [OperationalError]), the parameters are bound (a wrong number of them is
    a [ProgrammingError]), and the statement is run (a constraint that fails
    is an [IntegrityError]).  Foreign keys are declared but not enforced
    (SQLite's default). *)
Definition exec (st : statement) (params : list value) (db : database)
  : result database :=
  match st with
  | CreateTableIfNotExists name cols =>
    match params with
    | _ :: _ => Raise ProgrammingError
    | [] =>
      match assoc name db with
      | Some _ => Ok db
      | None => Ok (db ++ [(name, Table cols [])])
      end
    end
  | InsertInto name cols es =>
    match assoc name db with
    | None => Raise OperationalError
    | Some t =>
      if negb (fits t cols es) then Raise OperationalError
      else
        match bind_params es params with
        | Raise e => Raise e
        | Ok vals =>
          match insert_row t cols vals with
          | Raise e => Raise e
          | Ok t' => Ok (update name t' db)
          end
        end
    end
  end.

(** The statement changes the data ([INSERT]), as against the schema. *)
Definition is_dml (st : statement) : bool :=
  match st with
  | InsertInto _ _ _ => true
  | CreateTableIfNotExists _ _ => false
  end.

(** The statement has something to write: a [CREATE TABLE IF NOT EXISTS]
    for a table that is there has not. *)
Definition writes (st : statement) (db : database) : bool :=
  match st with
  | InsertInto _ _ _ => true
  | CreateTableIfNotExists name _ =>
    match assoc name db with
    | Some _ => false
    | None => true
    end
  end.

(** [SELECT * FROM name] *)
Definition rows (db : database) (name : string) : option (list row) :=
  match assoc name db with
  | Some t => Some (tbl_rows t)
  | None => None
  end.


End Sql.

(** ** The world the script runs in: files, directories, output streams,
    open database connections *)

(** A [pathlib.Path], as its tuple of parts: [["/"; "var"; "lib"]] for
    [/var/lib], [["out"; "seed.db"]] for the relative [out/seed.db], and [[]]
    for [Path(".")].  Paths are compared part by part. *)
Abbreviation path := (list string).

Inductive content : Type :=
  | Plain (s : string)             (* a text file *)
  | Sqlite (db : Sql.database)     (* a database file; empty when just made *)
  | Journal.                       (* the rollback journal of a transaction *)

(** A directory in which entries can be made and removed, or a read-only
    one; a file that can be rewritten, or a read-only one.  Removing a file
    asks for the permission of its directory, rewriting it for its own. *)
Inductive node : Type :=
  | Dir (writable : bool)
  | File (writable : bool) (c : content).

(** Where a connection stands: no transaction is open; one has been begun
    and has written nothing; or it has written, and its journal lies beside
    the database file. *)
Inductive txn : Type := NoTxn | Begun | Written.

#[global] Instance txn_eq_dec : EqDecision txn.
Proof. solve_decision. Defined.

(** What a [sqlite3.Connection] object holds while it is open: the file it
    works on ([None] for the database in memory that [:memory:] names), its
    view of the database ([None] when the file is no database, which the
    first statement finds out) and the state of its transaction.  What is
    not committed when the connection is closed is lost. *)
Record connection_state : Type := ConnState {
  conn_path : option path;
  conn_db : option Sql.database;
  conn_tx : txn
}.

(** The connection objects live in the world, one entry for each that was
    ever made ([None] once it is closed); a [connection] is a reference to
    one of them, so that every function handed the same [conn] works on the
    same object. *)
Record world : Type := World {
  fs : gmap path node;
  stdout : list string;     (* one entry for each [print] *)
  stderr : list string;
  connections : list (option connection_state)
}.

Definition connection := nat.

Definition set_fs (f : gmap path node) (w : world) : world :=
  World f (stdout w) (stderr w) (connections w).

Definition set_connection (c : connection) (s : option connection_state)
           (w : world) : world :=
  World (fs w) (stdout w) (stderr w) (<[c := s]> (connections w)).

(** ** Computations: state passing with exceptions

    A failing statement raises, and what it did to the world before stays
    done. *)
Definition M (A : Type) : Type := world -> world * result A.

Definition ret {A : Type} (a : A) : M A := fun w => (w, Ok a).

Definition raise {A : Type} (e : exn) : M A := fun w => (w, Raise e).

Definition bind {A B : Type} (m : M A) (k : A -> M B) : M B :=
  fun w =>
    match m w with
    | (w', Ok a) => k a w'
    | (w', Raise e) => (w', Raise e)
    end.

(** A pure computation that may raise. *)
Definition lift {A : Type} (r : result A) : M A := fun w => (w, r).

(** [try: body finally: fin] *)
Definition try_finally {A : Type} (body : M A) (fin : M unit) : M A :=
  fun w =>
    match body w with
    | (w', r) =>
      match fin w' with
      | (w'', Ok _) => (w'', r)
      | (w'', Raise e) => (w'', Raise e)
      end
    end.

Declare Scope py_scope.
Delimit Scope py_scope with py.
Notation "x <- m ;; k" := (bind m (fun x => k))
  (at level 100, m at next level, right associativity) : py_scope.
Notation "m ;; k" := (bind m (fun _ => k))
  (at level 100, right associativity) : py_scope.
Local Open Scope py_scope.

(** [print(s)] and [print(s, file=sys.stderr)] *)
Definition print (s : string) : M unit :=
  fun w => (World (fs w) (stdout w ++ [s]) (stderr w) (connections w), Ok tt).

Definition eprint (s : string) : M unit :=
  fun w => (World (fs w) (stdout w) (stderr w ++ [s]) (connections w), Ok tt).

(** ** [pathlib] *)

Module Pathlib.

(** [p.parent]: the anchor ([.] or [/]) is its own parent.  The parent is
    taken from the parts, whatever they are. *)
Definition parent (p : path) : path :=
  if bool_decide (p = ["/"]) then p else removelast p.

(** [str(p)] *)
Definition str (p : path) : string :=
  match p with
  | [] => "."
  | x :: rest =>
    if String.eqb x "/" then "/" +:+ String.concat "/" rest
    else String.concat "/" p
  end.

(** [p.is_absolute()] *)
Definition is_absolute (p : path) : bool :=
  match p with
  | x :: _ => String.eqb x "/"
  | [] => false
  end.

Definition is_dir (p : path) : M bool :=
  fun w =>
    (w, Ok match fs w !! p with Some (Dir _) => true | _ => false end).

(** [p.exists()] *)
Definition exists_ (p : path) : M bool :=
  fun w => (w, Ok match fs w !! p with Some _ => true | None => false end).

(** [os.mkdir(p)]: one directory, whose parent must be there. *)
Definition os_mkdir (p : path) : M unit :=
  fun w =>
    match fs w !! p with
    | Some _ => (w, Raise FileExistsError)
    | None =>
      match fs w !! parent p with
      | None => (w, Raise FileNotFoundError)
      | Some (File _ _) => (w, Raise NotADirectoryError)
      | Some (Dir false) => (w, Raise PermissionError)
      | Some (Dir true) => (set_fs (<[p := Dir true]> (fs w)) w, Ok tt)
      end
    end.

(** [p.mkdir(parents=False, exist_ok=...)]: an existing directory is
    accepted when [exist_ok]; a missing parent is an error. *)
Definition mkdir_here (p : path) (exist_ok : bool) : M unit :=
  fun w =>
    match os_mkdir p w with
    | (w', Ok _) => (w', Ok tt)
    | (w', Raise FileNotFoundError) => (w', Raise FileNotFoundError)
    | (w', Raise e) =>
      match is_dir p w' with
      | (w'', Ok true) => if exist_ok then (w'', Ok tt) else (w'', Raise e)
      | (w'', _) => (w'', Raise e)
      end
    end.

(** [p.mkdir(parents=True, exist_ok=...)]: when the parent is missing it is
    made first, by the same method, and then [p] itself.  [depth] bounds the
    nesting of these calls (the interpreter's recursion limit). *)
Fixpoint mkdir_parents (depth : nat) (p : path) (exist_ok : bool) : M unit :=
  fun w =>
    match os_mkdir p w with
    | (w', Ok _) => (w', Ok tt)
    | (w', Raise FileNotFoundError) =>
      if bool_decide (parent p = p) then (w', Raise FileNotFoundError)
      else
        match depth with
        | O => (w', Raise RecursionError)
        | S d =>
          match mkdir_parents d (parent p) true w' with
          | (w'', Ok _) => mkdir_here p exist_ok w''
          | (w'', Raise e) => (w'', Raise e)
          end
        end
    | (w', Raise e) =>
      match is_dir p w' with
      | (w'', Ok true) => if exist_ok then (w'', Ok tt) else (w'', Raise e)
      | (w'', _) => (w'', Raise e)
      end
    end.

(** [p.mkdir(parents=..., exist_ok=...)].  A path has no more ancestors
    than parts, so the depth given here is never used up
    (see [mkdir_parents_depth]). *)
Definition mkdir (p : path) (parents exist_ok : bool) : M unit :=
  if parents then mkdir_parents (length p) p exist_ok
  else mkdir_here p exist_ok.

(** [p.unlink()]: asks for the permission of the directory, not of the
    file. *)
Definition unlink (p : path) : M unit :=
  fun w =>
    match fs w !! p with
    | None => (w, Raise FileNotFoundError)
    | Some (Dir _) => (w, Raise IsADirectoryError)
    | Some (File _ _) =>
      match fs w !! parent p with
      | Some (Dir true) => (set_fs (delete p (fs w)) w, Ok tt)
      | Some (Dir false) => (w, Raise PermissionError)
      | Some (File _ _) => (w, Raise NotADirectoryError)
      | None => (w, Raise FileNotFoundError)
      end
    end.

(** [p.write_text(s)]: rewrites the file when it is there, which asks for
    the permission of the file, and makes it when it is not, which asks for
    that of the directory. *)
Definition write_text (p : path) (s : string) : M nat :=
  fun w =>
    match fs w !! p with
    | Some (Dir _) => (w, Raise IsADirectoryError)
    | Some (File true _) =>
      (set_fs (<[p := File true (Plain s)]> (fs w)) w, Ok (String.length s))
    | Some (File false _) => (w, Raise PermissionError)
    | None =>
      match fs w !! parent p with
      | Some (Dir true) =>
        (set_fs (<[p := File true (Plain s)]> (fs w)) w, Ok (String.length s))
      | Some (Dir false) => (w, Raise PermissionError)
      | Some (File _ _) => (w, Raise NotADirectoryError)
      | None => (w, Raise FileNotFoundError)
      end
    end.

End Pathlib.

(** ** [sqlite3] connections *)

Module Sqlite3.

(** The name that stands for a database in memory. *)
Definition is_memory (p : path) : bool := String.eqb (Pathlib.str p) ":memory:".

(** The rollback journal of the database file [p]: the file beside it
    whose name is that of [p] followed by [-journal]. *)
Definition journal (p : path) : path :=
  Pathlib.parent p ++ [List.last p EmptyString +:+ "-journal"].

(** A transaction on the file [p] can write: the file is there and can be
    rewritten, and its journal can be made beside it (the directory can be
    written and no directory bears the journal's name). *)
Definition can_write (f : gmap path node) (p : path) : bool :=
  match f !! p, f !! Pathlib.parent p, f !! journal p with
  | Some (File true _), Some (Dir true), Some (Dir _) => false
  | Some (File true _), Some (Dir true), _ => true
  | _, _, _ => false
  end.

(** The files once the file at [p], if there is one, is removed. *)
Definition remove_file (p : path) (f : gmap path node) : gmap path node :=
  match f !! p with
  | Some (File _ _) => delete p f
  | _ => f
  end.

(** A new connection object. *)
Definition open (p : option path) (db : option Sql.database) : M connection :=
  fun w =>
    (World (fs w) (stdout w) (stderr w)
           (connections w ++ [Some (ConnState p db NoTxn)]),
     Ok (length (connections w))).

(** [sqlite3.connect(p)]: [:memory:] opens a database in memory and touches
    no file.  Any other path is opened as a file, which is made, empty, when
    there is none.  An empty file is an empty database; that a file is no
    database is found out by the first statement. *)
Definition connect (p : path) : M connection :=
  fun w =>
    if is_memory p then open None (Some []) w
    else
      match fs w !! p with
      | Some (File _ (Sqlite db)) => open (Some p) (Some db) w
      | Some (File _ (Plain EmptyString)) => open (Some p) (Some []) w
      | Some (File _ _) => open (Some p) None w
      | Some (Dir _) => (w, Raise OperationalError)
      | None =>
        match fs w !! Pathlib.parent p with
        | Some (Dir true) =>
          open (Some p) (Some [])
               (set_fs (<[p := File true (Sqlite [])]> (fs w)) w)
        | _ => (w, Raise OperationalError)
        end
      end.

(** The transaction after a statement that failed: the module begins a
    transaction before it binds the parameters of an [INSERT] and runs it,
    and after it has prepared it. *)
Definition after_failure (st : Sql.statement) (e : exn) (tx : txn) : txn :=
  match tx with
  | NoTxn =>
    if Sql.is_dml st && negb (bool_decide (e = OperationalError)) then Begun
    else NoTxn
  | _ => tx
  end.

(** [conn.cursor().execute(statement, params)]; a closed connection
    refuses.  A [CREATE TABLE] outside a transaction is stored at once, the
    journal being made and removed on the way.  An [INSERT] begins a
    transaction; the first statement of a transaction that writes makes the
    journal, and the rows reach the file at [commit]. *)
Definition execute (st : Sql.statement) (params : list Sql.value)
           (conn : connection) : M unit :=
  fun w =>
    match connections w !! conn with
    | Some (Some (ConnState p (Some db) tx)) =>
      match Sql.exec st params db with
      | Raise e =>
        (set_connection conn
           (Some (ConnState p (Some db) (after_failure st e tx))) w,
         Raise e)
      | Ok db' =>
        if negb (Sql.writes st db) then (w, Ok tt)
        else
          match p with
          | None =>
            (set_connection conn
               (Some (ConnState None (Some db')
                        (if Sql.is_dml st || negb (bool_decide (tx = NoTxn))
                         then Written else NoTxn))) w,
             Ok tt)
          | Some file =>
            if bool_decide (tx = Written) then
              (set_connection conn (Some (ConnState p (Some db') Written)) w,
               Ok tt)
            else if negb (can_write (fs w) file) then
              (set_connection conn
                 (Some (ConnState p (Some db)
                          (if Sql.is_dml st then Begun else tx))) w,
               Raise OperationalError)
            else if Sql.is_dml st || bool_decide (tx = Begun) then
              (World (<[journal file := File true Journal]> (fs w))
                     (stdout w) (stderr w)
                     (<[conn := Some (ConnState p (Some db') Written)]>
                        (connections w)),
               Ok tt)
            else
              (World (<[file := File true (Sqlite db')]>
                        (delete (journal file) (fs w)))
                     (stdout w) (stderr w)
                     (<[conn := Some (ConnState p (Some db') NoTxn)]>
                        (connections w)),
               Ok tt)
          end
      end
    | Some (Some (ConnState _ None _)) => (w, Raise DatabaseError)
    | _ => (w, Raise ProgrammingError)
    end.

(** [conn.commit()]: what the transaction has written reaches the file and
    the journal is removed; with nothing written there is nothing to do. *)
Definition commit (conn : connection) : M unit :=
  fun w =>
    match connections w !! conn with
    | Some (Some (ConnState p db tx)) =>
      match tx, p, db with
      | Written, Some file, Some d =>
        match fs w !! file with
        | Some (File true _) =>
          (World (<[file := File true (Sqlite d)]>
                    (remove_file (journal file) (fs w)))
                 (stdout w) (stderr w)
                 (<[conn := Some (ConnState p db NoTxn)]> (connections w)),
           Ok tt)
        | _ => (w, Raise OperationalError)
        end
      | _, _, _ =>
        (set_connection conn (Some (ConnState p db NoTxn)) w, Ok tt)
      end
    | _ => (w, Raise ProgrammingError)
    end.

(** [conn.close()]: a transaction that is open is rolled back, and its
    journal removed. *)
Definition close (conn : connection) : M unit :=
  fun w =>
    match connections w !! conn with
    | Some (Some (ConnState (Some file) _ Written)) =>
      (World (remove_file (journal file) (fs w)) (stdout w) (stderr w)
             (<[conn := None]> (connections w)),
       Ok tt)
    | _ => (set_connection conn None w, Ok tt)
    end.

End Sqlite3.
(** ** [bcrypt]

    The hashing library is not part of the script.  What the script uses of
    it: [gensalt(rounds)], which draws a fresh salt, and [hashpw(password,
    salt)], which may raise.  One value of this record is the library as one
    run of the script sees it; two runs see the same [hashpw] and, as a rule,
    different salts. *)
Record bcrypt_module : Type := Bcrypt {
  gensalt : nat -> bytes;
  hashpw : bytes -> bytes -> result bytes
}.

(** [bcrypt.checkpw(password, hashed)] against a stored salt: hash again
    with that salt and compare. *)
Definition verify (bc : bcrypt_module) (password : string)
           (salt hashed : string) : bool :=
  match hashpw bc (Utf8.encode password) (Utf8.encode salt) with
  | Ok h => bool_decide (h = Utf8.encode hashed)
  | Raise _ => false
  end.

(** ** The script *)

Import Sql Sqlite3.

Definition BOOTSTRAP_API_KEY_ID : string := "halos-bootstrap".
Definition BOOTSTRAP_API_KEY_TOKEN : string :=
  "halos-bootstrap-rotate-me-on-first-boot-abc123".
Definition SERVICE_USER_ID : string := "halos-service".

(** Column definitions, as the [CREATE TABLE] statements write them. *)
Definition col (name : string) (ty : affinity) : column :=
  Column name ty false false false None None.
Definition primary_key (c : column) : column :=
  Column (col_name c) (col_type c) true (col_not_null c) (col_unique c)
         (col_default c) (col_references c).
Definition not_null (c : column) : column :=
  Column (col_name c) (col_type c) (col_primary_key c) true (col_unique c)
         (col_default c) (col_references c).
Definition unique (c : column) : column :=
  Column (col_name c) (col_type c) (col_primary_key c) (col_not_null c) true
         (col_default c) (col_references c).
Definition default (v : value) (c : column) : column :=
  Column (col_name c) (col_type c) (col_primary_key c) (col_not_null c)
         (col_unique c) (Some v) (col_references c).
Definition references (t k : string) (c : column) : column :=
  Column (col_name c) (col_type c) (col_primary_key c) (col_not_null c)
         (col_unique c) (col_default c) (Some (t, k)).

Definition onboarding_schema : list column :=
  [ not_null (primary_key (col "id" TEXT));
    not_null (col "step" TEXT);
    col "previousStep" TEXT ].

Definition user_schema : list column :=
  [ not_null (primary_key (col "id" TEXT));
    col "name" TEXT;
    col "email" TEXT;
    col "emailVerified" INTEGER;
    col "image" TEXT;
    col "password" TEXT;
    col "salt" TEXT;
    default (Text "credentials") (col "provider" TEXT);
    col "homeBoardId" TEXT;
    col "mobileHomeBoardId" TEXT;
    col "defaultSearchEngineId" TEXT;
    default (Integer 1) (col "openSearchInNewTab" INTEGER);
    default (Text "dark") (col "colorScheme" TEXT);
    default (Integer 1) (col "firstDayOfWeek" INTEGER);
    default (Integer 0) (col "pingIconsEnabled" INTEGER) ].

Definition apiKey_schema : list column :=
  [ not_null (primary_key (col "id" TEXT));
    not_null (col "apiKey" TEXT);
    not_null (col "salt" TEXT);
    references "user" "id" (col "userId" TEXT) ].

Definition serverSetting_schema : list column :=
  [ unique (not_null (primary_key (col "settingKey" TEXT)));
    default (Text "{}") (not_null (col "value" TEXT)) ].

(** [create_tables(conn)] *)
Definition create_tables (conn : connection) : M unit :=
  execute (CreateTableIfNotExists "onboarding" onboarding_schema) [] conn ;;
  execute (CreateTableIfNotExists "user" user_schema) [] conn ;;
  execute (CreateTableIfNotExists "apiKey" apiKey_schema) [] conn ;;
  execute (CreateTableIfNotExists "serverSetting" serverSetting_schema) [] conn ;;
  commit conn.

(** [insert_onboarding_complete(conn)] *)
Definition insert_onboarding_complete (conn : connection) : M unit :=
  execute
    (InsertInto "onboarding" ["id"; "step"; "previousStep"]
       [Lit (Text "init"); Lit (Text "finish"); Lit (Text "settings")])
    [] conn ;;
  commit conn.

(** [insert_service_user(conn)] *)
Definition insert_service_user (conn : connection) : M unit :=
  execute
    (InsertInto "user" ["id"; "name"; "provider"; "colorScheme"]
       [Param; Lit (Text "HaLOS Service Account"); Lit (Text "credentials");
        Lit (Text "dark")])
    [Text SERVICE_USER_ID] conn ;;
  commit conn.

(** The two settings documents of [insert_server_settings]. *)
Definition analytics : Json.value :=
  Json.JDict
    [("json", Json.JDict
       [("enableGeneral", Json.JBool false);
        ("enableWidgetData", Json.JBool false);
        ("enableIntegrationData", Json.JBool false);
        ("enableUserData", Json.JBool false)])].

Definition crawling : Json.value :=
  Json.JDict
    [("json", Json.JDict
       [("noIndex", Json.JBool true);
        ("noFollow", Json.JBool true);
        ("noTranslate", Json.JBool true);
        ("noSiteLinksSearchBox", Json.JBool true)])].

(** [insert_server_settings(conn)] *)
Definition insert_server_settings (conn : connection) : M unit :=
  execute
    (InsertInto "serverSetting" ["settingKey"; "value"] [Param; Param])
    [Text "analytics"; Text (Json.dumps analytics)] conn ;;
  execute
    (InsertInto "serverSetting" ["settingKey"; "value"] [Param; Param])
    [Text "crawlingAndIndexing"; Text (Json.dumps crawling)] conn ;;
  commit conn.

(** The parsed command line: [args.output_db] and [args.output_key]. *)
Record args : Type := Args {
  output_db : path;
  output_key : path
}.

Definition default_args : args :=
  Args ["db-seed.sqlite3"] ["bootstrap-api-key"].

Definition newline : string := String (ascii_of_N 10) EmptyString.

Section WithBcrypt.

(** The module bound by [import bcrypt]. *)
Variable bcrypt : bcrypt_module.

(** [insert_bootstrap_api_key(conn)]: returns the full key string. *)
Definition insert_bootstrap_api_key (conn : connection) : M string :=
  let salt := gensalt bcrypt 10 in
  hashed <- lift (hashpw bcrypt (Utf8.encode BOOTSTRAP_API_KEY_TOKEN) salt) ;;
  hashed_str <- lift (Utf8.decode hashed) ;;
  salt_str <- lift (Utf8.decode salt) ;;
  execute
    (InsertInto "apiKey" ["id"; "apiKey"; "salt"; "userId"]
       [Param; Param; Param; Param])
    [Text BOOTSTRAP_API_KEY_ID; Text hashed_str; Text salt_str;
     Text SERVICE_USER_ID] conn ;;
  commit conn ;;
  ret (BOOTSTRAP_API_KEY_ID +:+ "." +:+ BOOTSTRAP_API_KEY_TOKEN).

(** [main()], after [parser.parse_args()] has produced [a]. *)
Definition main (a : args) : M Z :=
  Pathlib.mkdir (Pathlib.parent (output_db a)) true true ;;
  Pathlib.mkdir (Pathlib.parent (output_key a)) true true ;;
  present <- Pathlib.exists_ (output_db a) ;;
  (if present : bool then Pathlib.unlink (output_db a) else ret tt) ;;
  print ("Creating seed database: " +:+ Pathlib.str (output_db a)) ;;
  conn <- connect (output_db a) ;;
  api_key <- try_finally
    (create_tables conn ;;
     insert_onboarding_complete conn ;;
     insert_service_user conn ;;
     api_key <- insert_bootstrap_api_key conn ;;
     insert_server_settings conn ;;
     ret api_key)
    (close conn) ;;
  print ("Writing bootstrap API key to: " +:+ Pathlib.str (output_key a)) ;;
  Pathlib.write_text (output_key a) (api_key +:+ newline) ;;
  print "Done!" ;;
  print ("  Database: " +:+ Pathlib.str (output_db a)) ;;
  print ("  API Key:  " +:+ Pathlib.str (output_key a)) ;;
  print (newline +:+ "Bootstrap API key ID: " +:+ BOOTSTRAP_API_KEY_ID) ;;
  print "This key should be rotated by homarr-container-adapter on first boot." ;;
  ret 0%Z.

End WithBcrypt.

(** The name of an exception, as the interpreter's traceback ends with it. *)
Definition exn_name (e : exn) : string :=
  match e with
  | FileNotFoundError => "FileNotFoundError"
  | FileExistsError => "FileExistsError"
  | NotADirectoryError => "NotADirectoryError"
  | IsADirectoryError => "IsADirectoryError"
  | PermissionError => "PermissionError"
  | RecursionError => "RecursionError"
  | UnicodeDecodeError => "UnicodeDecodeError"
  | ValueError => "ValueError"
  | OperationalError => "sqlite3.OperationalError"
  | IntegrityError => "sqlite3.IntegrityError"
  | ProgrammingError => "sqlite3.ProgrammingError"
  | DatabaseError => "sqlite3.DatabaseError"
  end.

Definition import_error_message : string :=
  "Error: bcrypt module not found. Install with: pip install bcrypt".

(** The script from its first line to the exit status of the process.
    [import bcrypt] finds the module or raises [ImportError]; an exception
    that leaves [main] ends the process with a traceback and status 1. *)
Definition script (imported : option bcrypt_module) (a : args)
  : world -> world * Z :=
  fun w =>
    match imported with
    | None =>
      match eprint import_error_message w with
      | (w', _) => (w', 1%Z)
      end
    | Some bcrypt =>
      match main bcrypt a w with
      | (w', Ok status) => (w', status)
      | (w', Raise e) =>
        match eprint ("Traceback (most recent call last): " +:+ exn_name e) w' with
        | (w'', _) => (w'', 1%Z)
        end
      end
    end.
(** ** Vocabulary of the properties *)

(** The database, or the text, stored at a path. *)
Definition database_at (w : world) (p : path) : option database :=
  match fs w !! p with
  | Some (File _ (Sqlite d)) => Some d
  | _ => None
  end.

Definition text_at (w : world) (p : path) : option string :=
  match fs w !! p with
  | Some (File _ (Plain s)) => Some s
  | _ => None
  end.

(** [p] is, or can be made by [mkdir(parents=True)], a directory in which
    files can be written: going up from [p], the first path that exists is a
    writable directory.  [depth] is the number of steps up that are looked
    at; a path has no more ancestors than parts. *)
Fixpoint writable_dir (depth : nat) (f : gmap path node) (p : path) : bool :=
  match f !! p with
  | Some (Dir b) => b
  | Some (File _ _) => false
  | None =>
    if bool_decide (Pathlib.parent p = p) then false
    else
      match depth with
      | O => false
      | S d => writable_dir d f (Pathlib.parent p)
      end
  end.

Definition not_a_directory (f : gmap path node) (p : path) : bool :=
  match f !! p with
  | Some (Dir _) => false
  | _ => true
  end.

(** A path at which a file can be made, after what may lie there is
    removed: it is not a directory and its directory is writable or can be
    made. *)
Definition writable (f : gmap path node) (p : path) : bool :=
  writable_dir (S (length (Pathlib.parent p))) f (Pathlib.parent p)
  && not_a_directory f p.


(** A path spelled plainly: no part of it is [..]. *)
Definition plain (p : path) : bool :=
  forallb (fun x => negb (String.eqb x "..")) p.

(** The two output paths are plain and given in the same way, both relative
    or both absolute: such paths name the same file only when they are
    equal part by part. *)
Definition plain_paths (a : args) : bool :=
  plain (output_db a) && plain (output_key a)
  && Bool.eqb (Pathlib.is_absolute (output_db a))
              (Pathlib.is_absolute (output_key a)).


(** The library hashes the bootstrap token with the salt it drew, and both
    the salt and the hash are text. *)
Definition bcrypt_works (bc : bcrypt_module) : bool :=
  match hashpw bc (Utf8.encode BOOTSTRAP_API_KEY_TOKEN) (gensalt bc 10) with
  | Ok h => Utf8.valid h && Utf8.valid (gensalt bc 10)
  | Raise _ => false
  end.

(** The four tables as a successful run leaves them, given the stored hash
    and salt. *)
Definition onboarding_rows : list row :=
  [ [("id", Text "init"); ("step", Text "finish");
     ("previousStep", Text "settings")] ].

Definition user_rows : list row :=
  [ [("id", Text SERVICE_USER_ID); ("name", Text "HaLOS Service Account");
     ("email", Null); ("emailVerified", Null); ("image", Null);
     ("password", Null); ("salt", Null); ("provider", Text "credentials");
     ("homeBoardId", Null); ("mobileHomeBoardId", Null);
     ("defaultSearchEngineId", Null); ("openSearchInNewTab", Integer 1);
     ("colorScheme", Text "dark"); ("firstDayOfWeek", Integer 1);
     ("pingIconsEnabled", Integer 0)] ].

Definition apiKey_rows (hashed salt : string) : list row :=
  [ [("id", Text BOOTSTRAP_API_KEY_ID); ("apiKey", Text hashed);
     ("salt", Text salt); ("userId", Text SERVICE_USER_ID)] ].

Definition serverSetting_rows : list row :=
  [ [("settingKey", Text "analytics"); ("value", Text (Json.dumps analytics))];
    [("settingKey", Text "crawlingAndIndexing");
     ("value", Text (Json.dumps crawling))] ].

Definition seed_database (hashed salt : string) : database :=
  [ ("onboarding", Table onboarding_schema onboarding_rows);
    ("user", Table user_schema user_rows);
    ("apiKey", Table apiKey_schema (apiKey_rows hashed salt));
    ("serverSetting", Table serverSetting_schema serverSetting_rows) ].

(** The hash and the salt a run with [bc] stores, as text. *)
Definition stored_salt (bc : bcrypt_module) : string :=
  string_of_list_byte (gensalt bc 10).

Definition stored_hash (bc : bcrypt_module) : string :=
  match hashpw bc (Utf8.encode BOOTSTRAP_API_KEY_TOKEN) (gensalt bc 10) with
  | Ok h => string_of_list_byte h
  | Raise _ => EmptyString
  end.

(** The content of the key file. *)
Definition key_file_text : string :=
  BOOTSTRAP_API_KEY_ID +:+ "." +:+ BOOTSTRAP_API_KEY_TOKEN +:+ newline.

(** [s.partition(".")]: the text before the first [.] and the text after
    it, when there is one. *)
Fixpoint partition_dot (s : string) : option (string * string) :=
  match s with
  | EmptyString => None
  | String c s' =>
    if Ascii.eqb c "."%char then Some (EmptyString, s')
    else
      match partition_dot s' with
      | Some (a, b) => Some (String c a, b)
      | None => None
      end
  end.

Fixpoint has_dot (s : string) : bool :=
  match s with
  | EmptyString => false
  | String c s' => Ascii.eqb c "."%char || has_dot s'
  end.



(** A stand-in for the library in examples: the salt is fixed and the hash
    is the salt followed by the password reversed. *)
Definition example_bcrypt (salt : string) : bcrypt_module :=
  Bcrypt (fun _ => Utf8.encode salt) (fun pw s => Ok (s ++ rev pw)).


Definition example_world : world := World {[ [] := Dir true ]} [] [] [].

(** ** Parts of [main] and the worlds they lead to *)

(** Nothing but the files has changed. *)
Definition same_but_files (w w' : world) : Prop :=
  stdout w' = stdout w /\ stderr w' = stderr w /\
  connections w' = connections w.

(** What a [mkdir] may do to the world: add writable directories at paths
    that were free, all of them at or above its argument. *)
Definition adds_dirs (p : path) (w w' : world) : Prop :=
  same_but_files w w' /\
  forall q, fs w' !! q = fs w !! q \/
            (fs w !! q = None /\ fs w' !! q = Some (Dir true) /\ q `prefix_of` p).

(** The statements of the [try] block of [main]. *)
Definition seed (bc : bcrypt_module) (conn : connection) : M string :=
  create_tables conn ;;
  insert_onboarding_complete conn ;;
  insert_service_user conn ;;
  api_key <- insert_bootstrap_api_key bc conn ;;
  insert_server_settings conn ;;
  ret api_key.

(** The file of a connection is in place and a transaction can write. *)
Definition ready (f : gmap path node) (p : path) : Prop := can_write f p = true.

(** The connection [conn] is open on the file [p] and sees [db], with no
    transaction open. *)
Definition sees (w : world) (conn : connection) (p : path) (db : database)
  : Prop :=
  connections w !! conn = Some (Some (ConnState (Some p) (Some db) NoTxn)).

(** The world after statements on [conn] that have reached the file: the
    connection sees [db], its file holds it, and there is no journal. *)
Definition store (conn : connection) (p : path) (db : database) (w : world)
  : world :=
  World (<[p := File true (Sqlite db)]> (delete (journal p) (fs w)))
        (stdout w) (stderr w)
        (<[conn := Some (ConnState (Some p) (Some db) NoTxn)]> (connections w)).

(** The database of the script with the given rows in its four tables. *)
Definition tables (o u k s : list row) : database :=
  [ ("onboarding", Table onboarding_schema o);
    ("user", Table user_schema u);
    ("apiKey", Table apiKey_schema k);
    ("serverSetting", Table serverSetting_schema s) ].

(** The old database, if any, can be removed and a new one made and
    written. *)
Definition db_ready (f : gmap path node) (p : path) : bool :=
  negb (is_memory p)
  && match f !! p, f !! Pathlib.parent p, f !! journal p with
     | Some (Dir _), _, _ => false
     | _, Some (Dir true), Some (Dir _) => false
     | _, Some (Dir true), _ => true
     | _, _, _ => false
     end.

(** The key file can be written. *)
Definition key_ready (f : gmap path node) (p : path) : bool :=
  match f !! p with
  | Some (Dir _) => false
  | Some (File b _) => b
  | None =>
    match f !! Pathlib.parent p with
    | Some (Dir true) => true
    | _ => false
    end
  end.

(** What a successful run prints. *)
Definition progress (a : args) : list string :=
  [ "Creating seed database: " +:+ Pathlib.str (output_db a);
    "Writing bootstrap API key to: " +:+ Pathlib.str (output_key a);
    "Done!";
    "  Database: " +:+ Pathlib.str (output_db a);
    "  API Key:  " +:+ Pathlib.str (output_key a);
    newline +:+ "Bootstrap API key ID: " +:+ BOOTSTRAP_API_KEY_ID;
    "This key should be rotated by homarr-container-adapter on first boot." ].

(** The files a successful run leaves, over the files [f] it found after
    making the directories. *)
Definition outputs (bc : bcrypt_module) (a : args) (f : gmap path node)
  : gmap path node :=
  <[output_key a := File true (Plain key_file_text)]>
    (<[output_db a :=
         File true (Sqlite (seed_database (stored_hash bc) (stored_salt bc)))]>
       (delete (journal (output_db a)) f)).

(** The world a successful run leaves, having started in [w] and found
    [w1] after making the directories. *)
Definition finished (bc : bcrypt_module) (a : args) (w w1 : world) : world :=
  World (outputs bc a (fs w1)) (stdout w ++ progress a) (stderr w)
        (connections w ++ [None]).

(** The world once the old database is gone, the new one is seeded and the
    first line is printed. *)
Definition seeded (bc : bcrypt_module) (a : args) (w : world) : world :=
  World (<[output_db a :=
             File true (Sqlite (seed_database (stored_hash bc) (stored_salt bc)))]>
           (delete (journal (output_db a)) (fs w)))
        (stdout w ++ ["Creating seed database: " +:+ Pathlib.str (output_db a)])
        (stderr w)
        (connections w ++ [None]).

(** [main] up to [conn.close()]. *)
Definition database_part (bc : bcrypt_module) (a : args) : M string :=
  present <- Pathlib.exists_ (output_db a) ;;
  (if present : bool then Pathlib.unlink (output_db a) else ret tt) ;;
  print ("Creating seed database: " +:+ Pathlib.str (output_db a)) ;;
  conn <- connect (output_db a) ;;
  try_finally (seed bc conn) (close conn).

(** ... and from there on. *)
Definition key_part (a : args) (api_key : string) : M Z :=
  print ("Writing bootstrap API key to: " +:+ Pathlib.str (output_key a)) ;;
  Pathlib.write_text (output_key a) (api_key +:+ newline) ;;
  print "Done!" ;;
  print ("  Database: " +:+ Pathlib.str (output_db a)) ;;
  print ("  API Key:  " +:+ Pathlib.str (output_key a)) ;;
  print (newline +:+ "Bootstrap API key ID: " +:+ BOOTSTRAP_API_KEY_ID) ;;
  print "This key should be rotated by homarr-container-adapter on first boot." ;;
  ret 0%Z.

(** [main] from the removal of the old database on. *)
Definition generate (bc : bcrypt_module) (a : args) : M Z :=
  api_key <- database_part bc a ;;
  key_part a api_key.

(** The two [mkdir] calls that open [main]. *)
Definition make_dirs (a : args) : M unit :=
  Pathlib.mkdir (Pathlib.parent (output_db a)) true true ;;
  Pathlib.mkdir (Pathlib.parent (output_key a)) true true.

(** What the two calls may do: add writable directories where there was
    nothing, above the two output paths. *)
Definition dirs_added (a : args) (w w' : world) : Prop :=
  same_but_files w w' /\
  forall q, fs w' !! q = fs w !! q \/
            (fs w !! q = None /\ fs w' !! q = Some (Dir true) /\
             (q `prefix_of` Pathlib.parent (output_db a) \/
              q `prefix_of` Pathlib.parent (output_key a))).






Definition example_salt : string := "$2b$10$abcdefghijklmnopqrstuu".








(** ** Vocabulary of the further properties *)

(** Started where [P] holds, [m] ends, whether it returns or raises, in a
    world that [R] relates to the first and where [P] holds again. *)
Definition keeps {A : Type} (P : world -> Prop) (R : world -> world -> Prop)
           (m : M A) : Prop :=
  forall w w' r, P w -> m w = (w', r) -> R w w' /\ P w'.

(** The connection [conn] is open, on the file [p] or in memory. *)
Definition open_on (conn : connection) (p : option path) (w : world) : Prop :=
  exists db tx, connections w !! conn = Some (Some (ConnState p db tx)).

(** What statements on the connection [conn] may change: the state of that
    connection and, when it is open on a file, that file, which is left as
    it was or holding a database, and the journal beside it, which is left
    as it was, removed, or a journal.  No directory is touched. *)
Definition session_step (conn : connection) (p : option path) (w w' : world)
  : Prop :=
  stdout w' = stdout w /\ stderr w' = stderr w /\
  <[conn := None]> (connections w') = <[conn := None]> (connections w) /\
  (forall q b, fs w !! q = Some (Dir b) -> fs w' !! q = Some (Dir b)) /\
  match p with
  | None => fs w' = fs w
  | Some file =>
    (forall q, q <> file -> q <> journal file -> fs w' !! q = fs w !! q) /\
    (fs w' !! file = fs w !! file \/
     exists db, fs w' !! file = Some (File true (Sqlite db))) /\
    (fs w' !! journal file = fs w !! journal file \/
     fs w' !! journal file = None \/
     fs w' !! journal file = Some (File true Journal))
  end.


(** A library whose [hashpw] refuses the salt. *)
Definition failing_bcrypt : bcrypt_module :=
  Bcrypt (fun _ => Utf8.encode example_salt) (fun _ _ => Raise ValueError).

(** A writable working directory in which a directory bears the name of
    the journal of the default database. *)
Definition journal_dir_world : world :=
  World {[ [] := Dir true; ["db-seed.sqlite3-journal"] := Dir true ]} [] [] [].

(** The connection [conn] is open on a database in memory and sees [db],
    with no transaction open. *)
Definition sees_memory (w : world) (conn : connection) (db : database)
  : Prop :=
  connections w !! conn = Some (Some (ConnState None (Some db) NoTxn)).

(** The world after statements on a connection in memory: the connection
    sees [db], and no file has changed. *)
Definition holds (conn : connection) (db : database) (w : world) : world :=
  set_connection conn (Some (ConnState None (Some db) NoTxn)) w.

(** A working directory that cannot be written, with a directory that
    can. *)
Definition locked_world : world :=
  World {[ [] := Dir false; ["keys"] := Dir true ]} [] [] [].







(** A fresh database file and a connection open on it. *)
Definition fresh_world : world :=
  World {[ [] := Dir true; ["seed.sqlite3"] := File true (Sqlite []) ]}
        [] []
        [Some (ConnState (Some ["seed.sqlite3"]) (Some []) NoTxn)].

(** * Paths *)

Lemma removelast_prefix (p : path) : removelast p `prefix_of` p.
Proof.
  destruct (decide (p = [])) as [-> | Hne]; [by exists [] |].
  exists [List.last p EmptyString]. by apply app_removelast_last.
Qed.

Lemma parent_prefix (p : path) : Pathlib.parent p `prefix_of` p.
Proof.
  unfold Pathlib.parent. case_bool_decide; [done | apply removelast_prefix].
Qed.

Lemma parent_shorter (p : path) :
  Pathlib.parent p <> p -> length (Pathlib.parent p) < length p.
Proof.
  unfold Pathlib.parent. case_bool_decide; [done |]. intros Hne.
  destruct (decide (p = [])) as [-> | Hp]; [done |].
  rewrite (app_removelast_last EmptyString Hp) at 2.
  rewrite length_app. simpl. lia.
Qed.

Lemma not_prefix_parent (p : path) :
  Pathlib.parent p <> p -> ~ p `prefix_of` Pathlib.parent p.
Proof.
  intros Hne Hpre. apply parent_shorter in Hne.
  apply prefix_length in Hpre. lia.
Qed.

Lemma prefix_parent (q p : path) :
  q `prefix_of` Pathlib.parent p -> q `prefix_of` p.
Proof. intros H. etrans; [exact H | apply parent_prefix]. Qed.

(** * Making directories *)

Lemma same_but_files_refl w : same_but_files w w.
Proof. by repeat split. Qed.

Lemma same_but_files_trans w1 w2 w3 :
  same_but_files w1 w2 -> same_but_files w2 w3 -> same_but_files w1 w3.
Proof. intros (? & ? & ?) (? & ? & ?). repeat split; congruence. Qed.

Lemma adds_dirs_refl p w : adds_dirs p w w.
Proof. split; [apply same_but_files_refl | auto]. Qed.

Lemma adds_dirs_trans p q w1 w2 w3 :
  q `prefix_of` p -> adds_dirs q w1 w2 -> adds_dirs p w2 w3 -> adds_dirs p w1 w3.
Proof.
  intros Hqp (Hs1 & H1) (Hs2 & H2).
  split; [by eapply same_but_files_trans |].
  intros x. destruct (H2 x) as [E2 | (N2 & D2 & P2)], (H1 x) as [E1 | (N1 & D1 & P1)].
  - left; congruence.
  - right; repeat split; [done | congruence | by etrans].
  - right; repeat split; [congruence | done | done].
  - congruence.
Qed.

Lemma adds_dirs_keeps p w w' q n :
  adds_dirs p w w' -> fs w !! q = Some n -> fs w' !! q = Some n.
Proof.
  intros (_ & H) Hq. destruct (H q) as [-> | (Hn & _)]; congruence.
Qed.

Lemma adds_dirs_off p w w' q :
  adds_dirs p w w' -> ~ q `prefix_of` p -> fs w' !! q = fs w !! q.
Proof. intros (_ & H) Hq. destruct (H q) as [-> | (_ & _ & ?)]; done. Qed.

Lemma os_mkdir_spec p w w' r :
  Pathlib.os_mkdir p w = (w', r) ->
  (r = Ok tt /\ fs w !! p = None /\ fs w !! Pathlib.parent p = Some (Dir true)
   /\ w' = set_fs (<[p := Dir true]> (fs w)) w)
  \/ (exists e, r = Raise e /\ w' = w /\
        (e = FileNotFoundError <-> (fs w !! p = None /\ fs w !! Pathlib.parent p = None))
        /\ (fs w !! p = None -> fs w !! Pathlib.parent p <> Some (Dir true))).
Proof.
  unfold Pathlib.os_mkdir. intros H.
  destruct (fs w !! p) as [n|] eqn:Ep.
  - right. exists FileExistsError. inversion H; subst. repeat split; try done.
    intros [? ?]; done.
  - destruct (fs w !! Pathlib.parent p) as [[[|]|c]|] eqn:Epp; inversion H; subst.
    + left. done.
    + right. eexists; repeat split; try done. intros [? ?]; done.
    + right. eexists; repeat split; try done. intros [? ?]; done.
    + right. eexists; repeat split; try done.
Qed.

Lemma os_mkdir_adds p w w' r : Pathlib.os_mkdir p w = (w', r) -> adds_dirs p w w'.
Proof.
  intros H. apply os_mkdir_spec in H as [(-> & Hp & _ & ->) | (e & -> & -> & _)].
  - repeat split; try done. intros q. simpl.
    destruct (decide (p = q)) as [<- | Hne].
    + right. rewrite lookup_insert_eq. done.
    + left. by rewrite lookup_insert_ne.
  - apply adds_dirs_refl.
Qed.

Lemma mkdir_here_adds p e w w' r :
  Pathlib.mkdir_here p e w = (w', r) -> adds_dirs p w w'.
Proof.
  unfold Pathlib.mkdir_here, Pathlib.is_dir. intros H.
  destruct (Pathlib.os_mkdir p w) as [w1 r1] eqn:E.
  apply os_mkdir_adds in E.
  destruct r1 as [[]|x]; [by inversion H; subst |].
  destruct x; repeat case_match; simplify_eq; done.
Qed.

Lemma mkdir_parents_adds d : forall p e w w' r,
  Pathlib.mkdir_parents d p e w = (w', r) -> adds_dirs p w w'.
Proof.
  induction d as [|d IH]; intros p e w w' r H; simpl in H;
    destruct (Pathlib.os_mkdir p w) as [w1 r1] eqn:E;
    apply os_mkdir_adds in E; unfold Pathlib.is_dir in H.
  - destruct r1 as [[]|x]; [by inversion H; subst |].
    destruct x; repeat case_match; simplify_eq; done.
  - destruct r1 as [[]|x]; [by inversion H; subst |].
    destruct x; repeat case_match; simplify_eq; try done.
    + eapply adds_dirs_trans; [reflexivity | exact E |].
      eapply adds_dirs_trans; [apply parent_prefix | eapply IH; eassumption |].
      eapply mkdir_here_adds; eassumption.
    + eapply adds_dirs_trans; [reflexivity | exact E |].
      eapply adds_dirs_trans; [apply parent_prefix | eapply IH; eassumption |].
      apply adds_dirs_refl.
Qed.

(** A directory that is there: [mkdir] with [exist_ok] leaves it alone. *)
Lemma mkdir_parents_existing d p w b :
  fs w !! p = Some (Dir b) -> Pathlib.mkdir_parents d p true w = (w, Ok tt).
Proof.
  intros Hp.
  destruct d; simpl; unfold Pathlib.os_mkdir, Pathlib.is_dir;
    rewrite Hp; simpl; by rewrite Hp.
Qed.

(** The depth [mkdir] gives [mkdir_parents] is never used up. *)
Lemma mkdir_parents_depth d : forall p e w,
  length p <= d -> snd (Pathlib.mkdir_parents d p e w) <> Raise RecursionError.
Proof.
  assert (Hhere : forall p e w,
             snd (Pathlib.mkdir_here p e w) <> Raise RecursionError).
  { intros p e w. unfold Pathlib.mkdir_here, Pathlib.os_mkdir, Pathlib.is_dir.
    repeat (case_match; simplify_eq; simpl; try done). }
  induction d as [|d IH]; intros p e w Hlen; simpl;
    unfold Pathlib.os_mkdir, Pathlib.is_dir.
  - destruct p; [| simpl in Hlen; lia].
    repeat (case_match; simplify_eq; simpl; try done).
  - destruct (fs w !! p) as [n|] eqn:Ep.
    { repeat (case_match; simplify_eq; simpl; try done). }
    destruct (fs w !! Pathlib.parent p) as [[[|]|c]|] eqn:Epp; simpl; try done.
    + by rewrite Ep.
    + by rewrite Ep.
    + case_bool_decide as Hpar; [done |].
      apply parent_shorter in Hpar.
      specialize (IH (Pathlib.parent p) true w ltac:(lia)).
      destruct (Pathlib.mkdir_parents d (Pathlib.parent p) true w)
        as [w1 [[]|x]]; [apply Hhere | done].
Qed.

Lemma writable_dir_eq d f p :
  writable_dir d f p =
  match f !! p with
  | Some (Dir b) => b
  | Some (File _ _) => false
  | None =>
    if bool_decide (Pathlib.parent p = p) then false
    else match d with O => false | S d' => writable_dir d' f (Pathlib.parent p) end
  end.
Proof. by destruct d. Qed.

Lemma writable_dir_unfold d f p :
  writable_dir (S d) f p =
  match f !! p with
  | Some (Dir b) => b
  | Some (File _ _) => false
  | None =>
    if bool_decide (Pathlib.parent p = p) then false
    else writable_dir d f (Pathlib.parent p)
  end.
Proof. reflexivity. Qed.

Lemma writable_dir_here d f p b :
  f !! p = Some (Dir b) -> writable_dir d f p = b.
Proof. intros H. destruct d; simpl; by rewrite H. Qed.

Lemma writable_dir_file d f p b c :
  f !! p = Some (File b c) -> writable_dir d f p = false.
Proof. intros H. destruct d; simpl; by rewrite H. Qed.

(** ... and neither is the depth [writable] looks up to. *)
Lemma writable_dir_depth d : forall f p,
  length p <= d -> writable_dir (S d) f p = writable_dir d f p.
Proof.
  induction d as [|d IH]; intros f p Hlen;
    rewrite (writable_dir_eq (S _)), (writable_dir_eq _ f p);
    destruct (f !! p) as [[b|c]|]; try done.
  - destruct p; [| simpl in Hlen; lia]. by rewrite bool_decide_eq_true_2.
  - case_bool_decide as Hpar; [done |]. apply IH.
    apply parent_shorter in Hpar. lia.
Qed.

(** New directories do not make a location less writable. *)
Lemma writable_dir_mono d : forall (f f' : gmap path node) p,
  (forall q, f' !! q = f !! q \/ (f !! q = None /\ f' !! q = Some (Dir true))) ->
  writable_dir d f p = true -> writable_dir d f' p = true.
Proof.
  induction d as [|d IH]; intros f f' p H;
    rewrite (writable_dir_eq _ f), (writable_dir_eq _ f');
    destruct (H p) as [-> | [-> ->]]; try done.
  destruct (f !! p) as [[b|c]|]; try done.
  case_bool_decide; [done |]. by apply IH.
Qed.

(** A location that is writable: [mkdir] succeeds and leaves a writable
    directory. *)
Lemma mkdir_parents_creates d : forall p w,
  writable_dir (S d) (fs w) p = true ->
  exists w', Pathlib.mkdir_parents d p true w = (w', Ok tt)
             /\ fs w' !! p = Some (Dir true).
Proof.
  induction d as [|d IH]; intros p w Hw; rewrite writable_dir_unfold in Hw.
  - destruct (fs w !! p) as [[b|c]|] eqn:Ep; try done.
    { subst b. exists w. split; [by eapply mkdir_parents_existing | done]. }
    case_bool_decide as Hpar; [done |].
    simpl. unfold Pathlib.os_mkdir. rewrite Ep.
    destruct (fs w !! Pathlib.parent p) as [[b|c]|] eqn:Epp.
    + rewrite (writable_dir_here _ _ _ _ Epp) in Hw. subst b.
      eexists; split; [done |]. simpl. by rewrite lookup_insert_eq.
    + by rewrite (writable_dir_file _ _ _ _ _ Epp) in Hw.
    + simpl in Hw. rewrite Epp in Hw. by case_bool_decide.
  - destruct (fs w !! p) as [[b|c]|] eqn:Ep; try done.
    { subst b. exists w. split; [by eapply mkdir_parents_existing | done]. }
    case_bool_decide as Hpar; [done |].
    destruct (IH _ _ Hw) as (w1 & Hm & Hd).
    pose proof (mkdir_parents_adds _ _ _ _ _ _ Hm) as Hadd.
    assert (Hp1 : fs w1 !! p = None).
    { rewrite (adds_dirs_off _ _ _ _ Hadd); [done | by apply not_prefix_parent]. }
    cbn [Pathlib.mkdir_parents]. unfold Pathlib.os_mkdir at 1. rewrite Ep.
    destruct (fs w !! Pathlib.parent p) as [[b|c]|] eqn:Epp.
    + rewrite (writable_dir_here _ _ _ _ Epp) in Hw. subst b.
      eexists; split; [done |]. simpl. by rewrite lookup_insert_eq.
    + by rewrite (writable_dir_file _ _ _ _ _ Epp) in Hw.
    + rewrite bool_decide_eq_false_2 by done. rewrite Hm.
      unfold Pathlib.mkdir_here, Pathlib.os_mkdir. rewrite Hp1, Hd.
      eexists; split; [done |]. simpl. by rewrite lookup_insert_eq.
Qed.


(** * Running a computation statement by statement *)

Lemma bind_ok {A B} (m : M A) (k : A -> M B) w w1 a :
  m w = (w1, Ok a) -> bind m k w = k a w1.
Proof. unfold bind. by intros ->. Qed.

Lemma bind_raise {A B} (m : M A) (k : A -> M B) w w1 e :
  m w = (w1, Raise e) -> bind m k w = (w1, Raise e).
Proof. unfold bind. by intros ->. Qed.

Lemma bind_ret {A B} (a : A) (k : A -> M B) w : bind (ret a) k w = k a w.
Proof. reflexivity. Qed.

Lemma print_run s w :
  print s w = (World (fs w) (stdout w ++ [s]) (stderr w) (connections w), Ok tt).
Proof. reflexivity. Qed.

Lemma close_ok conn w : snd (close conn w) = Ok tt.
Proof.
  unfold close.
  by destruct (connections w !! conn) as [[[[file|] db []]|]|].
Qed.

Lemma try_finally_close {A} (body : M A) conn w w' r :
  body w = (w', r) ->
  try_finally body (close conn) w = (fst (close conn w'), r).
Proof.
  unfold try_finally. intros ->. pose proof (close_ok conn w') as H.
  destruct (close conn w') as [w'' r']. simpl in *. by subst.
Qed.

(** Closing a connection whose transaction, if any, has written nothing. *)
Lemma close_idle conn p db tx w :
  connections w !! conn = Some (Some (ConnState p db tx)) ->
  tx <> Written \/ p = None ->
  close conn w = (set_connection conn None w, Ok tt).
Proof.
  intros Hc H. unfold close. rewrite Hc.
  destruct p as [file|]; [| done]. destruct tx; try done. by destruct H.
Qed.

Lemma exists_run p w :
  Pathlib.exists_ p w = (w, Ok (bool_decide (is_Some (fs w !! p)))).
Proof. unfold Pathlib.exists_. by destruct (fs w !! p). Qed.

Lemma unlink_file p w b c :
  fs w !! p = Some (File b c) -> fs w !! Pathlib.parent p = Some (Dir true) ->
  Pathlib.unlink p w = (set_fs (delete p (fs w)) w, Ok tt).
Proof. intros Hp Hpar. unfold Pathlib.unlink. by rewrite Hp, Hpar. Qed.

Lemma write_text_ready p s w :
  key_ready (fs w) p = true ->
  Pathlib.write_text p s w =
  (set_fs (<[p := File true (Plain s)]> (fs w)) w, Ok (String.length s)).
Proof.
  unfold key_ready, Pathlib.write_text. intros H.
  destruct (fs w !! p) as [[b|[|] c]|]; try done.
  by destruct (fs w !! Pathlib.parent p) as [[[|]|]|].
Qed.

Lemma write_text_blocked p s w :
  key_ready (fs w) p = false ->
  exists e, Pathlib.write_text p s w = (w, Raise e).
Proof.
  unfold key_ready, Pathlib.write_text. intros H.
  destruct (fs w !! p) as [[b|[|] c]|]; try done; try (by eexists).
  destruct (fs w !! Pathlib.parent p) as [[[|]|]|]; try done; by eexists.
Qed.

Lemma decode_valid b : Utf8.valid b = true -> Utf8.decode b = Ok (string_of_list_byte b).
Proof. unfold Utf8.decode. by intros ->. Qed.

Lemma encode_decoded (b : bytes) : Utf8.encode (string_of_list_byte b) = b.
Proof. apply list_byte_of_string_of_list_byte. Qed.

(** * The journal beside a database file *)

Lemma length_string_app (s t : string) :
  String.length (s +:+ t) = String.length s + String.length t.
Proof. induction s as [| c s IH]; simpl; [done | by rewrite IH]. Qed.

Lemma journal_length p : length (journal p) = S (length (Pathlib.parent p)).
Proof. unfold journal. rewrite length_app. simpl. lia. Qed.

Lemma journal_ne p : journal p <> p.
Proof.
  unfold journal, Pathlib.parent. case_bool_decide as Hp.
  - subst p. done.
  - destruct (decide (p = [])) as [-> | Hne]; [done |].
    rewrite (app_removelast_last EmptyString Hne) at 3.
    intros E. apply app_inv_head in E. injection E as E.
    apply (f_equal String.length) in E.
    rewrite length_string_app in E. simpl in E. lia.
Qed.

Lemma journal_not_prefix_parent p : ~ journal p `prefix_of` Pathlib.parent p.
Proof.
  intros H. apply prefix_length in H. rewrite journal_length in H. lia.
Qed.

Lemma parent_ne_journal p : Pathlib.parent p <> journal p.
Proof.
  intros E. apply (f_equal length) in E. rewrite journal_length in E. lia.
Qed.

Lemma can_write_inv f p :
  can_write f p = true ->
  (exists c, f !! p = Some (File true c)) /\
  f !! Pathlib.parent p = Some (Dir true) /\
  not_a_directory f (journal p) = true.
Proof.
  unfold can_write, not_a_directory. intros H.
  destruct (f !! p) as [[b|[|] c]|]; try done.
  destruct (f !! Pathlib.parent p) as [[[|]|]|]; try done.
  split; [by eexists |]. split; [done |].
  by destruct (f !! journal p) as [[|]|].
Qed.

Lemma can_write_intro f p c :
  f !! p = Some (File true c) -> f !! Pathlib.parent p = Some (Dir true) ->
  not_a_directory f (journal p) = true -> can_write f p = true.
Proof.
  unfold can_write, not_a_directory. intros -> -> H.
  by destruct (f !! journal p) as [[|]|].
Qed.

Lemma ready_parent f p : ready f p -> Pathlib.parent p <> p.
Proof.
  intros H. apply can_write_inv in H as ([c Hc] & Hp & _). congruence.
Qed.

(** * The statements on the connection *)

Lemma ready_written f p db :
  ready f p -> ready (<[p := File true (Sqlite db)]> (delete (journal p) f)) p.
Proof.
  intros H. pose proof (ready_parent _ _ H) as Hne.
  apply can_write_inv in H as ([c Hc] & Hp & Hj).
  eapply can_write_intro.
  - by rewrite lookup_insert_eq.
  - rewrite lookup_insert_ne by done.
    rewrite lookup_delete_ne by (symmetry; apply parent_ne_journal). done.
  - unfold not_a_directory.
    rewrite lookup_insert_ne by (symmetry; apply journal_ne).
    by rewrite lookup_delete_eq.
Qed.

Lemma ready_store conn p db w : ready (fs w) p -> ready (fs (store conn p db w)) p.
Proof. apply ready_written. Qed.

Lemma sees_store conn p db0 db w :
  sees w conn p db0 -> sees (store conn p db w) conn p db.
Proof.
  unfold sees, store. simpl. intros H.
  apply list_lookup_insert_eq. by eapply lookup_lt_Some.
Qed.

Lemma written_written (f : gmap path node) p db db' :
  <[p := File true (Sqlite db')]>
    (delete (journal p) (<[p := File true (Sqlite db)]> (delete (journal p) f)))
  = <[p := File true (Sqlite db')]> (delete (journal p) f).
Proof.
  rewrite delete_insert_ne by apply journal_ne.
  by rewrite insert_insert_eq, delete_delete_eq.
Qed.

Lemma store_store conn p db db' w :
  store conn p db' (store conn p db w) = store conn p db' w.
Proof.
  unfold store. simpl. f_equal.
  - apply written_written.
  - by rewrite list_insert_insert_eq.
Qed.

Lemma world_eta (w : world) :
  World (fs w) (stdout w) (stderr w) (connections w) = w.
Proof. by destruct w. Qed.

Lemma set_connection_same conn s w :
  connections w !! conn = Some s -> set_connection conn s w = w.
Proof.
  intros H. unfold set_connection. rewrite list_insert_id by done.
  apply world_eta.
Qed.

Lemma bind_assoc {A B C} (m : M A) (k : A -> M B) (h : B -> M C) w :
  bind (bind m k) h w = bind m (fun a => bind (k a) h) w.
Proof. unfold bind. by destruct (m w) as [w1 [a|e]]. Qed.

(** A [CREATE TABLE] for a table that is not there, outside a
    transaction, reaches the file at once. *)
Lemma execute_create st conn p db db' w :
  sees w conn p db -> ready (fs w) p ->
  is_dml st = false -> writes st db = true ->
  exec st [] db = Ok db' ->
  execute st [] conn w = (store conn p db' w, Ok tt).
Proof.
  unfold sees, ready, execute. intros -> Hr Hd Hw ->.
  by rewrite Hw, Hr, Hd.
Qed.


(** With no transaction open there is nothing to commit. *)
Lemma commit_sees conn p db w :
  sees w conn p db -> commit conn w = (w, Ok tt).
Proof.
  unfold sees, commit. intros H. rewrite H. simpl.
  by rewrite set_connection_same.
Qed.

(** The world in the middle of a transaction on [conn]: the connection
    sees [db], the journal is there, and the file holds what it held. *)
Lemma execute_insert st ps conn p db db' w :
  sees w conn p db -> ready (fs w) p ->
  is_dml st = true -> exec st ps db = Ok db' ->
  execute st ps conn w
  = (World (<[journal p := File true Journal]> (fs w)) (stdout w) (stderr w)
           (<[conn := Some (ConnState (Some p) (Some db') Written)]>
              (connections w)),
     Ok tt).
Proof.
  unfold sees, ready, execute. intros -> Hr Hd ->.
  destruct st as [n cols | n cols es]; [done |]. simpl. by rewrite Hr.
Qed.

Lemma execute_more st ps conn p db db' w :
  connections w !! conn = Some (Some (ConnState (Some p) (Some db) Written)) ->
  is_dml st = true -> exec st ps db = Ok db' ->
  execute st ps conn w
  = (set_connection conn (Some (ConnState (Some p) (Some db') Written)) w,
     Ok tt).
Proof.
  unfold execute. intros -> Hd ->.
  destruct st as [n cols | n cols es]; [done |]. done.
Qed.

Lemma commit_written conn p db b c w :
  connections w !! conn = Some (Some (ConnState (Some p) (Some db) Written)) ->
  fs w !! p = Some (File true c) ->
  fs w !! journal p = Some (File b Journal) ->
  commit conn w
  = (World (<[p := File true (Sqlite db)]> (delete (journal p) (fs w)))
           (stdout w) (stderr w)
           (<[conn := Some (ConnState (Some p) (Some db) NoTxn)]>
              (connections w)),
     Ok tt).
Proof.
  unfold commit. intros -> Hp Hj. rewrite Hp. unfold remove_file. by rewrite Hj.
Qed.

(** An [INSERT] and the [commit] that follows it. *)
Lemma execute_commit st ps conn p db db' w :
  sees w conn p db -> ready (fs w) p ->
  is_dml st = true -> exec st ps db = Ok db' ->
  bind (execute st ps conn) (fun _ => commit conn) w = (store conn p db' w, Ok tt).
Proof.
  intros Hs Hr Hd He.
  erewrite bind_ok by (by eapply execute_insert).
  pose proof Hr as Hr'. apply can_write_inv in Hr' as ([c Hc] & _ & _).
  erewrite commit_written; simpl.
  - unfold store. f_equal. f_equal.
    + by rewrite delete_insert_eq.
    + by rewrite list_insert_insert_eq.
  - apply list_lookup_insert_eq. by eapply lookup_lt_Some.
  - rewrite lookup_insert_ne by apply journal_ne. exact Hc.
  - by rewrite lookup_insert_eq.
Qed.

(** Two [INSERT]s and the [commit] that follows them. *)
Lemma execute_twice_commit st1 ps1 st2 ps2 conn p db db1 db2 w :
  sees w conn p db -> ready (fs w) p ->
  is_dml st1 = true -> exec st1 ps1 db = Ok db1 ->
  is_dml st2 = true -> exec st2 ps2 db1 = Ok db2 ->
  bind (execute st1 ps1 conn)
       (fun _ => bind (execute st2 ps2 conn) (fun _ => commit conn)) w
  = (store conn p db2 w, Ok tt).
Proof.
  intros Hs Hr Hd1 He1 Hd2 He2.
  erewrite bind_ok by (by eapply execute_insert).
  pose proof Hr as Hr'. apply can_write_inv in Hr' as ([c Hc] & _ & _).
  erewrite bind_ok.
  2:{ eapply execute_more; [| done | exact He2]. simpl.
      apply list_lookup_insert_eq. by eapply lookup_lt_Some. }
  erewrite commit_written; simpl.
  - unfold store. f_equal. f_equal.
    + by rewrite delete_insert_eq.
    + by rewrite !list_insert_insert_eq.
  - rewrite list_insert_insert_eq.
    apply list_lookup_insert_eq. by eapply lookup_lt_Some.
  - rewrite lookup_insert_ne by apply journal_ne. exact Hc.
  - by rewrite lookup_insert_eq.
Qed.

Lemma create_tables_fresh conn p w :
  sees w conn p [] -> ready (fs w) p ->
  create_tables conn w = (store conn p (tables [] [] [] []) w, Ok tt).
Proof.
  intros Hs Hr. unfold create_tables.
  erewrite bind_ok by (by eapply execute_create).
  erewrite bind_ok
    by (eapply execute_create; eauto using sees_store, ready_store).
  erewrite bind_ok
    by (eapply execute_create; eauto using sees_store, ready_store).
  erewrite bind_ok
    by (eapply execute_create; eauto 6 using sees_store, ready_store).
  rewrite !store_store.
  by erewrite commit_sees by (by eapply sees_store).
Qed.

Lemma insert_onboarding_complete_run conn p u k s w :
  sees w conn p (tables [] u k s) -> ready (fs w) p ->
  insert_onboarding_complete conn w
  = (store conn p (tables onboarding_rows u k s) w, Ok tt).
Proof. intros Hs Hr. by eapply execute_commit. Qed.

Lemma insert_service_user_run conn p o k s w :
  sees w conn p (tables o [] k s) -> ready (fs w) p ->
  insert_service_user conn w = (store conn p (tables o user_rows k s) w, Ok tt).
Proof. intros Hs Hr. by eapply execute_commit. Qed.

Lemma insert_server_settings_run conn p o u k w :
  sees w conn p (tables o u k []) -> ready (fs w) p ->
  insert_server_settings conn w
  = (store conn p (tables o u k serverSetting_rows) w, Ok tt).
Proof. intros Hs Hr. by eapply execute_twice_commit. Qed.

Lemma insert_bootstrap_api_key_run bc conn p o u s w :
  sees w conn p (tables o u [] s) -> ready (fs w) p ->
  bcrypt_works bc = true ->
  insert_bootstrap_api_key bc conn w =
  (store conn p (tables o u (apiKey_rows (stored_hash bc) (stored_salt bc)) s) w,
   Ok (BOOTSTRAP_API_KEY_ID +:+ "." +:+ BOOTSTRAP_API_KEY_TOKEN)).
Proof.
  intros Hs Hr Hb. unfold bcrypt_works in Hb. unfold stored_hash, stored_salt.
  unfold insert_bootstrap_api_key.
  destruct (hashpw bc (Utf8.encode BOOTSTRAP_API_KEY_TOKEN) (gensalt bc 10))
    as [h|e] eqn:Eh; [| done].
  apply andb_true_iff in Hb as [Hvh Hvs].
  erewrite bind_ok by reflexivity.
  rewrite (decode_valid _ Hvh). erewrite bind_ok by reflexivity.
  rewrite (decode_valid _ Hvs). erewrite bind_ok by reflexivity.
  rewrite <- bind_assoc.
  erewrite bind_ok by (by eapply execute_commit).
  reflexivity.
Qed.

Lemma insert_bootstrap_api_key_returns bc conn w w' key :
  insert_bootstrap_api_key bc conn w = (w', Ok key) ->
  key = BOOTSTRAP_API_KEY_ID +:+ "." +:+ BOOTSTRAP_API_KEY_TOKEN.
Proof.
  unfold insert_bootstrap_api_key, bind, lift, ret.
  intros H. repeat (case_match; simplify_eq). reflexivity.
Qed.

(** The [try] block on a fresh database file, when the library works. *)
Lemma seed_ok bc conn p w :
  sees w conn p [] -> ready (fs w) p -> bcrypt_works bc = true ->
  seed bc conn w =
  (store conn p (seed_database (stored_hash bc) (stored_salt bc)) w,
   Ok (BOOTSTRAP_API_KEY_ID +:+ "." +:+ BOOTSTRAP_API_KEY_TOKEN)).
Proof.
  intros Hs Hr Hb. unfold seed.
  erewrite bind_ok by (by eapply create_tables_fresh).
  erewrite bind_ok
    by (eapply insert_onboarding_complete_run;
        eauto using sees_store, ready_store).
  erewrite bind_ok
    by (eapply insert_service_user_run; eauto using sees_store, ready_store).
  erewrite bind_ok
    by (eapply insert_bootstrap_api_key_run;
        eauto 6 using sees_store, ready_store).
  erewrite bind_ok
    by (eapply insert_server_settings_run;
        eauto 7 using sees_store, ready_store).
  rewrite !store_store. reflexivity.
Qed.

(** The world with a new connection on the fresh, empty database at [p]. *)
Lemma connect_fresh p w :
  is_memory p = false ->
  fs w !! p = None -> fs w !! Pathlib.parent p = Some (Dir true) ->
  connect p w =
  (World (<[p := File true (Sqlite [])]> (fs w)) (stdout w) (stderr w)
         (connections w ++ [Some (ConnState (Some p) (Some []) NoTxn)]),
   Ok (length (connections w))).
Proof. intros Hm Hp Hpar. unfold connect. by rewrite Hm, Hp, Hpar. Qed.

Lemma ready_connected (f : gmap path node) p :
  f !! p = None -> f !! Pathlib.parent p = Some (Dir true) ->
  not_a_directory f (journal p) = true ->
  ready (<[p := File true (Sqlite [])]> f) p.
Proof.
  intros Hp Hpar Hj. eapply can_write_intro.
  - by rewrite lookup_insert_eq.
  - rewrite lookup_insert_ne; [done | congruence].
  - unfold not_a_directory in *.
    by rewrite lookup_insert_ne by (symmetry; apply journal_ne).
Qed.

Lemma insert_end {A : Type} (l : list A) (x y : A) :
  <[length l := y]> (l ++ [x]) = l ++ [y].
Proof. rewrite insert_app_r_alt by lia. by rewrite Nat.sub_diag. Qed.

(** From [connect] on a free path to [conn.close()], when the library
    works. *)
Lemma session_ok bc p w :
  is_memory p = false ->
  fs w !! p = None -> fs w !! Pathlib.parent p = Some (Dir true) ->
  not_a_directory (fs w) (journal p) = true ->
  bcrypt_works bc = true ->
  bind (connect p) (fun conn => try_finally (seed bc conn) (close conn)) w =
  (World (<[p := File true
                   (Sqlite (seed_database (stored_hash bc) (stored_salt bc)))]>
            (delete (journal p) (fs w)))
         (stdout w) (stderr w) (connections w ++ [None]),
   Ok (BOOTSTRAP_API_KEY_ID +:+ "." +:+ BOOTSTRAP_API_KEY_TOKEN)).
Proof.
  intros Hm Hp Hpar Hj Hbc. erewrite bind_ok by (by apply connect_fresh).
  erewrite try_finally_close.
  2:{ eapply seed_ok; [| by apply ready_connected | done].
      unfold sees. simpl. apply list_lookup_middle. done. }
  erewrite close_idle.
  2:{ unfold store. simpl. apply list_lookup_insert_eq.
      rewrite length_app. simpl. lia. }
  2:{ by left. }
  f_equal. unfold set_connection, store. simpl. f_equal.
  - rewrite delete_insert_ne by apply journal_ne. by rewrite insert_insert_eq.
  - rewrite list_insert_insert_eq. apply insert_end.
Qed.

(** * The run, part by part *)

Lemma db_ready_inv f p :
  db_ready f p = true ->
  is_memory p = false /\ not_a_directory f p = true /\
  f !! Pathlib.parent p = Some (Dir true) /\
  not_a_directory f (journal p) = true.
Proof.
  unfold db_ready, not_a_directory. intros H.
  apply andb_true_iff in H as [Hm H]. apply negb_true_iff in Hm.
  destruct (f !! p) as [[b|b c]|];
    destruct (f !! Pathlib.parent p) as [[[|]|]|];
    destruct (f !! journal p) as [[|]|]; done.
Qed.

Lemma db_ready_intro f p :
  is_memory p = false -> not_a_directory f p = true ->
  f !! Pathlib.parent p = Some (Dir true) ->
  not_a_directory f (journal p) = true ->
  db_ready f p = true.
Proof.
  unfold db_ready, not_a_directory. intros -> Hp -> Hj.
  destruct (f !! p) as [[b|b c]|]; destruct (f !! journal p) as [[|]|]; done.
Qed.

Lemma database_part_ok bc a w :
  db_ready (fs w) (output_db a) = true ->
  bcrypt_works bc = true ->
  database_part bc a w =
  (seeded bc a w, Ok (BOOTSTRAP_API_KEY_ID +:+ "." +:+ BOOTSTRAP_API_KEY_TOKEN)).
Proof.
  intros Hdb Hbc. apply db_ready_inv in Hdb as (Hm & Hnd & Hpar & Hj).
  unfold database_part. erewrite bind_ok by apply exists_run.
  unfold not_a_directory in Hnd.
  destruct (fs w !! output_db a) as [[b|b c]|] eqn:Ep; [done | |].
  - rewrite bool_decide_eq_true_2 by eauto.
    erewrite bind_ok by (by eapply unlink_file).
    erewrite bind_ok by apply print_run.
    assert (Hne : output_db a <> Pathlib.parent (output_db a)) by congruence.
    rewrite session_ok; simpl; [| done | by rewrite lookup_delete_eq
                                | by rewrite lookup_delete_ne | | done].
    + unfold seeded. f_equal. f_equal.
      rewrite delete_delete. by rewrite insert_delete_eq.
    + unfold not_a_directory in *.
      by rewrite lookup_delete_ne by (symmetry; apply journal_ne).
  - rewrite bool_decide_eq_false_2 by (by intros [? ?]).
    rewrite bind_ret.
    erewrite bind_ok by apply print_run.
    by rewrite session_ok.
Qed.

Lemma key_part_ok a k w :
  key_ready (fs w) (output_key a) = true ->
  key_part a k w =
  (World (<[output_key a := File true (Plain (k +:+ newline))]> (fs w))
         (stdout w ++ tail (progress a)) (stderr w) (connections w), Ok 0%Z).
Proof.
  intros Hk. unfold key_part.
  erewrite bind_ok by apply print_run.
  erewrite bind_ok by (by apply write_text_ready).
  do 5 (erewrite bind_ok by apply print_run).
  unfold ret, set_fs. simpl. by rewrite <- !app_assoc.
Qed.

Lemma key_part_blocked a k w :
  key_ready (fs w) (output_key a) = false ->
  exists e, key_part a k w =
            (World (fs w)
                   (stdout w ++ ["Writing bootstrap API key to: "
                                   +:+ Pathlib.str (output_key a)])
                   (stderr w) (connections w), Raise e).
Proof.
  intros Hk. unfold key_part.
  erewrite bind_ok by apply print_run.
  match goal with
  | |- context [bind (Pathlib.write_text ?p ?s) _ ?w1] =>
    destruct (write_text_blocked p s w1) as [e He]; [exact Hk |]
  end.
  erewrite bind_raise by exact He. by eexists.
Qed.


Lemma main_parts bc a w :
  main bc a w = bind (make_dirs a) (fun _ => generate bc a) w.
Proof.
  unfold main, make_dirs, generate, database_part, key_part, seed, bind.
  repeat (case_match; simplify_eq; try done).
Qed.

Lemma dirs_added_keeps a w w' q n :
  dirs_added a w w' -> fs w !! q = Some n -> fs w' !! q = Some n.
Proof.
  intros (_ & H) Hq. destruct (H q) as [-> | (Hn & _)]; congruence.
Qed.

Lemma dirs_added_files a w w' q b c :
  dirs_added a w w' ->
  fs w' !! q = Some (File b c) <-> fs w !! q = Some (File b c).
Proof.
  intros (_ & H). destruct (H q) as [-> | (Hn & Hd & _)]; [done |].
  rewrite Hn, Hd. split; congruence.
Qed.

Lemma make_dirs_adds a w w' r : make_dirs a w = (w', r) -> dirs_added a w w'.
Proof.
  unfold make_dirs, bind, Pathlib.mkdir. intros H.
  destruct (Pathlib.mkdir_parents _ (Pathlib.parent (output_db a)) true w)
    as [w1 r1] eqn:E1.
  apply mkdir_parents_adds in E1 as (Hs1 & H1).
  assert (Hd1 : dirs_added a w w1).
  { split; [done |]. intros q.
    destruct (H1 q) as [? | (? & ? & ?)]; [by left | right; auto]. }
  destruct r1 as [[]|e]; [| by simplify_eq].
  apply mkdir_parents_adds in H as (Hs2 & H2).
  split; [by eapply same_but_files_trans |]. intros q.
  destruct (H2 q) as [E2 | (N2 & D2 & P2)], (H1 q) as [E1 | (N1 & D1 & P1)].
  - left; congruence.
  - right; repeat split; [done | congruence | auto].
  - right; repeat split; [congruence | done | auto].
  - congruence.
Qed.

Lemma make_dirs_existing a w b1 b2 :
  fs w !! Pathlib.parent (output_db a) = Some (Dir b1) ->
  fs w !! Pathlib.parent (output_key a) = Some (Dir b2) ->
  make_dirs a w = (w, Ok tt).
Proof.
  intros H1 H2. unfold make_dirs, Pathlib.mkdir.
  erewrite bind_ok by (by eapply mkdir_parents_existing).
  by eapply mkdir_parents_existing.
Qed.

Lemma script_main bc a w w' :
  main bc a w = (w', Ok 0%Z) -> script (Some bc) a w = (w', 0%Z).
Proof. unfold script. by intros ->. Qed.

(** * The files a run leaves *)

Lemma outputs_key bc a f :
  outputs bc a f !! output_key a = Some (File true (Plain key_file_text)).
Proof. unfold outputs. by rewrite lookup_insert_eq. Qed.

Lemma outputs_db bc a f :
  output_db a <> output_key a ->
  outputs bc a f !! output_db a =
  Some (File true (Sqlite (seed_database (stored_hash bc) (stored_salt bc)))).
Proof.
  intros Hne. unfold outputs.
  rewrite lookup_insert_ne by done. by rewrite lookup_insert_eq.
Qed.


(** Whatever database is found at [output_db] after a successful run is the
    seeded one. *)
Lemma outputs_database bc a w w1 d :
  database_at (finished bc a w w1) (output_db a) = Some d ->
  d = seed_database (stored_hash bc) (stored_salt bc).
Proof.
  unfold database_at. simpl.
  destruct (decide (output_db a = output_key a)) as [E | Hne].
  - rewrite E, outputs_key. done.
  - rewrite outputs_db by done. congruence.
Qed.

Lemma database_at_outputs bc a w w1 :
  output_db a <> output_key a ->
  database_at (finished bc a w w1) (output_db a) =
  Some (seed_database (stored_hash bc) (stored_salt bc)).
Proof. intros Hne. unfold database_at. simpl. by rewrite outputs_db. Qed.




(** * Valid and blocked outputs *)



(** A path that is not a directory, in a directory that is one or can be
    made, is not its own parent. *)
Lemma writable_not_anchor d f p :
  writable_dir d f (Pathlib.parent p) = true -> not_a_directory f p = true ->
  Pathlib.parent p <> p.
Proof.
  intros Hw Hn E. rewrite E in Hw. rewrite writable_dir_eq in Hw.
  unfold not_a_directory in Hn.
  destruct (f !! p) as [[b|b c]|]; try done.
  by rewrite bool_decide_eq_true_2 in Hw.
Qed.



(** A path keeps what it held while the directories are made, if it is not
    at or above one of the two directories. *)
Lemma dirs_added_off a w w1 q :
  dirs_added a w w1 ->
  ~ q `prefix_of` Pathlib.parent (output_db a) ->
  ~ q `prefix_of` Pathlib.parent (output_key a) ->
  fs w1 !! q = fs w !! q.
Proof.
  intros (_ & H) H1 H2. destruct (H q) as [? | (_ & _ & [Hq | Hq])]; done.
Qed.

Lemma dirs_added_db a w w1 :
  dirs_added a w w1 ->
  Pathlib.parent (output_db a) <> output_db a ->
  ~ output_db a `prefix_of` output_key a ->
  fs w1 !! output_db a = fs w !! output_db a.
Proof.
  intros Hd Hpar Hpre. eapply dirs_added_off; [done | |].
  - by apply not_prefix_parent.
  - intros Hq. by apply Hpre, prefix_parent.
Qed.






(** * The key string *)

Lemma partition_dot_join (a b : string) :
  has_dot a = false -> partition_dot (a +:+ "." +:+ b) = Some (a, b).
Proof.
  induction a as [|c a IH]; simpl; [done |].
  intros H. apply orb_false_iff in H as [Hc Ha].
  rewrite Hc. by rewrite (IH Ha).
Qed.

Lemma partition_dot_rejoin (s a b : string) :
  partition_dot s = Some (a, b) -> s = a +:+ "." +:+ b /\ has_dot a = false.
Proof.
  revert a b. induction s as [|c s IH]; simpl; [done |]. intros a b H.
  destruct (Ascii.eqb c ".") eqn:Ec.
  - apply Ascii.eqb_eq in Ec. by simplify_eq.
  - destruct (partition_dot s) as [[a' b']|]; [| done]. simplify_eq.
    destruct (IH _ _ eq_refl) as [-> Ha]. simpl. by rewrite Ec, Ha.
Qed.

(** * What the statements on a connection may change *)

Lemma keeps_bind {A B : Type} (P : world -> Prop) (R : world -> world -> Prop)
      (m : M A) (k : A -> M B) :
  (forall w1 w2 w3, R w1 w2 -> R w2 w3 -> R w1 w3) ->
  keeps P R m -> (forall a, keeps P R (k a)) -> keeps P R (bind m k).
Proof.
  intros Ht Hm Hk w w' r HP H. unfold bind in H.
  destruct (m w) as [w1 [a|e]] eqn:E.
  - destruct (Hm _ _ _ HP E) as [HR HP1].
    destruct (Hk a _ _ _ HP1 H) as [HR' HP']. split; [by eapply Ht | done].
  - simplify_eq. exact (Hm _ _ _ HP E).
Qed.

Lemma session_step_refl conn p w : session_step conn p w w.
Proof.
  unfold session_step. do 4 (split; [by auto |]).
  destruct p; [| done]. split; [done |]. split; by left.
Qed.

Lemma session_step_trans conn p w1 w2 w3 :
  session_step conn p w1 w2 -> session_step conn p w2 w3 ->
  session_step conn p w1 w3.
Proof.
  intros (Ho & He & Hc & Hd & Hp) (Ho' & He' & Hc' & Hd' & Hp').
  split; [congruence |]. split; [congruence |]. split; [congruence |].
  split; [by eauto |].
  destruct p as [file|]; [| congruence].
  destruct Hp as (Hf & Hfile & Hj), Hp' as (Hf' & Hfile' & Hj').
  split; [intros q H1 H2; by rewrite Hf', Hf |]. split.
  - destruct Hfile' as [E | ?]; [by rewrite E | by right].
  - destruct Hj' as [E | [E | E]];
      [by rewrite E | right; by left | right; by right].
Qed.

(** A change of the state of the connection alone. *)
Lemma session_step_conn conn p s w :
  session_step conn p w (set_connection conn s w).
Proof.
  unfold session_step, set_connection. simpl.
  do 2 (split; [done |]). split; [by rewrite list_insert_insert_eq |].
  split; [done |]. destruct p; [| done]. split; [done |]. split; by left.
Qed.

Lemma session_step_files conn file w f' s :
  (forall q b, fs w !! q = Some (Dir b) -> f' !! q = Some (Dir b)) ->
  (forall q, q <> file -> q <> journal file -> f' !! q = fs w !! q) ->
  (f' !! file = fs w !! file \/
   exists db, f' !! file = Some (File true (Sqlite db))) ->
  (f' !! journal file = fs w !! journal file \/
   f' !! journal file = None \/
   f' !! journal file = Some (File true Journal)) ->
  session_step conn (Some file) w
               (World f' (stdout w) (stderr w) (<[conn := s]> (connections w))).
Proof.
  intros Hd Hf Hfile Hj. unfold session_step. simpl.
  do 2 (split; [done |]). split; [by rewrite list_insert_insert_eq |]. done.
Qed.

Lemma open_on_insert conn p db tx s f o e w :
  connections w !! conn = Some s ->
  open_on conn p
          (World f o e (<[conn := Some (ConnState p db tx)]> (connections w))).
Proof.
  intros H. exists db, tx. simpl.
  apply list_lookup_insert_eq. by eapply lookup_lt_Some.
Qed.

Lemma remove_file_lookup (p : path) (f : gmap path node) (q : path) :
  remove_file p f !! q =
  if decide (q = p)
  then match f !! p with Some (File _ _) => None | x => x end
  else f !! q.
Proof.
  unfold remove_file. case_decide as E.
  - subst q. destruct (f !! p) as [[b|b c]|] eqn:Ep; try done.
    by rewrite lookup_delete_eq.
  - destruct (f !! p) as [[b|b c]|] eqn:Ep; try done.
    by rewrite lookup_delete_ne.
Qed.

(** The files once the transaction on [file] has been stored. *)
Lemma session_step_stored (conn : connection) (file : path) (w : world)
      (c : content) (d : database) (s : option connection_state)
      (f0 : gmap path node) :
  fs w !! file = Some (File true c) ->
  (forall q, q <> journal file -> f0 !! q = fs w !! q) ->
  (f0 !! journal file = None \/ f0 !! journal file = fs w !! journal file) ->
  not_a_directory (fs w) (journal file) = true \/
  f0 !! journal file = fs w !! journal file ->
  session_step conn (Some file) w
    (World (<[file := File true (Sqlite d)]> f0)
           (stdout w) (stderr w) (<[conn := s]> (connections w))).
Proof.
  intros Hfile Hf0 Hj Hnd. apply session_step_files.
  - intros q b Hq.
    destruct (decide (q = file)) as [-> | Hq1]; [congruence |].
    rewrite lookup_insert_ne by done.
    destruct (decide (q = journal file)) as [-> | Hq2]; [| by rewrite Hf0].
    destruct Hnd as [Hnd | E]; [| by rewrite E].
    unfold not_a_directory in Hnd. by rewrite Hq in Hnd.
  - intros q Hq1 Hq2. rewrite lookup_insert_ne by done. by apply Hf0.
  - right. exists d. by rewrite lookup_insert_eq.
  - rewrite lookup_insert_ne by (symmetry; apply journal_ne).
    destruct Hj as [? | ?]; [right; by left | by left].
Qed.

Lemma keeps_ret {A : Type} conn p (a : A) :
  keeps (open_on conn p) (session_step conn p) (ret a).
Proof.
  intros w w' r HP H. unfold ret in H. simplify_eq.
  split; [apply session_step_refl | done].
Qed.

Lemma keeps_lift {A : Type} conn p (x : result A) :
  keeps (open_on conn p) (session_step conn p) (lift x).
Proof.
  intros w w' r HP H. unfold lift in H. simplify_eq.
  split; [apply session_step_refl | done].
Qed.

Lemma keeps_execute conn p st ps :
  keeps (open_on conn p) (session_step conn p) (execute st ps conn).
Proof.
  intros w w' r (db & tx & Hs) H. unfold execute in H. rewrite Hs in H.
  destruct db as [d|];
    [| simplify_eq; split; [apply session_step_refl | by exists None, tx]].
  destruct (exec st ps d) as [d'|e].
  2:{ simplify_eq. split; [apply session_step_conn |].
      by eapply open_on_insert. }
  destruct (negb (writes st d)).
  { simplify_eq. split; [apply session_step_refl | by exists (Some d), tx]. }
  destruct p as [file|].
  2:{ simplify_eq. split; [apply session_step_conn | by eapply open_on_insert]. }
  case_bool_decide.
  { simplify_eq. split; [apply session_step_conn | by eapply open_on_insert]. }
  destruct (can_write (fs w) file) eqn:Hcw; simpl in H.
  2:{ simplify_eq. split; [apply session_step_conn | by eapply open_on_insert]. }
  apply can_write_inv in Hcw as ([c Hc] & Hpar & Hnd).
  destruct (is_dml st || bool_decide (tx = Begun)); simplify_eq.
  - split; [| by eapply open_on_insert]. apply session_step_files.
    + intros q b Hq. rewrite lookup_insert_ne; [done |].
      intros <-. unfold not_a_directory in Hnd. by rewrite Hq in Hnd.
    + intros q _ Hq. by rewrite lookup_insert_ne.
    + left. by rewrite lookup_insert_ne by apply journal_ne.
    + right; right. by rewrite lookup_insert_eq.
  - split; [| by eapply open_on_insert].
    eapply session_step_stored; [done | | |].
    + intros q Hq. by rewrite lookup_delete_ne.
    + left. by rewrite lookup_delete_eq.
    + by left.
Qed.

Lemma keeps_commit conn p :
  keeps (open_on conn p) (session_step conn p) (commit conn).
Proof.
  intros w w' r (db & tx & Hs) H. unfold commit in H. rewrite Hs in H.
  destruct tx.
  1-2: simplify_eq; split; [apply session_step_conn | by eapply open_on_insert].
  destruct p as [file|], db as [d|].
  2-4: simplify_eq; split; [apply session_step_conn | by eapply open_on_insert].
  destruct (fs w !! file) as [[b|[|] c]|] eqn:Hfile; simplify_eq.
  1,3,4: split; [apply session_step_refl | by eexists _, _].
  split; [| by eapply open_on_insert].
  eapply session_step_stored; [done | | |].
  - intros q Hq. rewrite remove_file_lookup. by rewrite decide_False.
  - rewrite remove_file_lookup, decide_True by done.
    destruct (fs w !! journal file) as [[|]|]; auto.
  - rewrite remove_file_lookup, decide_True by done.
    unfold not_a_directory.
    destruct (fs w !! journal file) as [[|]|]; auto.
Qed.

Ltac keeps_steps :=
  repeat first
    [ apply keeps_execute | apply keeps_commit | apply keeps_lift
    | apply keeps_ret
    | apply keeps_bind; [apply session_step_trans | | intros ?] ].

Lemma keeps_create_tables conn p :
  keeps (open_on conn p) (session_step conn p) (create_tables conn).
Proof. unfold create_tables. keeps_steps. Qed.

Lemma keeps_insert_onboarding_complete conn p :
  keeps (open_on conn p) (session_step conn p) (insert_onboarding_complete conn).
Proof. unfold insert_onboarding_complete. keeps_steps. Qed.

Lemma keeps_insert_service_user conn p :
  keeps (open_on conn p) (session_step conn p) (insert_service_user conn).
Proof. unfold insert_service_user. keeps_steps. Qed.

Lemma keeps_insert_bootstrap_api_key bc conn p :
  keeps (open_on conn p) (session_step conn p) (insert_bootstrap_api_key bc conn).
Proof. unfold insert_bootstrap_api_key. keeps_steps. Qed.

Lemma keeps_insert_server_settings conn p :
  keeps (open_on conn p) (session_step conn p) (insert_server_settings conn).
Proof. unfold insert_server_settings. keeps_steps. Qed.

Lemma keeps_seed bc conn p :
  keeps (open_on conn p) (session_step conn p) (seed bc conn).
Proof.
  unfold seed.
  repeat first
    [ apply keeps_create_tables | apply keeps_insert_onboarding_complete
    | apply keeps_insert_service_user | apply keeps_insert_bootstrap_api_key
    | apply keeps_insert_server_settings | apply keeps_ret
    | apply keeps_bind; [apply session_step_trans | | intros ?] ].
Qed.

Lemma seed_returns bc conn w w' k :
  seed bc conn w = (w', Ok k) ->
  k = BOOTSTRAP_API_KEY_ID +:+ "." +:+ BOOTSTRAP_API_KEY_TOKEN.
Proof.
  unfold seed, bind, ret. intros H.
  destruct (create_tables conn w) as [w1 [[]|?]]; [| done].
  destruct (insert_onboarding_complete conn w1) as [w2 [[]|?]]; [| done].
  destruct (insert_service_user conn w2) as [w3 [[]|?]]; [| done].
  destruct (insert_bootstrap_api_key bc conn w3) as [w4 [k'|?]] eqn:Hk; [| done].
  apply insert_bootstrap_api_key_returns in Hk.
  destruct (insert_server_settings conn w4) as [w5 [[]|?]]; by simplify_eq.
Qed.

(** * What a run may change *)

(** [conn.close()] on an open connection. *)
Lemma close_step conn p w :
  open_on conn p w ->
  session_step conn p w (fst (close conn w)) /\
  connections (fst (close conn w)) = <[conn := None]> (connections w).
Proof.
  intros (db & tx & Hs). unfold close. rewrite Hs.
  destruct p as [file|]; [| split; [apply session_step_conn | done]].
  destruct tx; try (split; [apply session_step_conn | done]).
  simpl. split; [| done]. apply session_step_files.
  - intros q b Hq. rewrite remove_file_lookup. case_decide; [| done].
    subst q. by rewrite Hq.
  - intros q _ Hq. rewrite remove_file_lookup. by rewrite decide_False.
  - left. rewrite remove_file_lookup.
    by rewrite decide_False by (symmetry; apply journal_ne).
  - rewrite remove_file_lookup, decide_True by done.
    destruct (fs w !! journal file) as [[|]|]; auto.
Qed.

(** The [try] block and the [finally] after it, on a connection that has
    just been opened. *)
Lemma try_finally_changes bc p w l w' r :
  connections w = l ++ [Some (ConnState p (Some []) NoTxn)] ->
  try_finally (seed bc (length l)) (close (length l)) w = (w', r) ->
  session_step (length l) p w w' /\ connections w' = l ++ [None] /\
  (forall k, r = Ok k ->
             k = BOOTSTRAP_API_KEY_ID +:+ "." +:+ BOOTSTRAP_API_KEY_TOKEN).
Proof.
  intros Hc H.
  destruct (seed bc (length l) w) as [w4 r4] eqn:Hbody.
  erewrite try_finally_close in H by exact Hbody. simplify_eq.
  assert (Hopen : open_on (length l) p w).
  { eexists _, _. rewrite Hc. by apply list_lookup_middle. }
  pose proof (keeps_seed bc _ p _ _ _ Hopen Hbody) as [Hstep Hopen'].
  destruct (close_step _ _ _ Hopen') as [Hstep' Hc'].
  split; [by eapply session_step_trans |]. split.
  - rewrite Hc'. destruct Hstep as (_ & _ & -> & _). rewrite Hc.
    apply insert_end.
  - intros k ->. by eapply seed_returns.
Qed.

(** From the first [print] to [conn.close()], when the database is in
    memory or there is nothing at the database path. *)
Lemma session_changes bc a w w' r :
  is_memory (output_db a) = true \/ fs w !! output_db a = None ->
  bind (print ("Creating seed database: " +:+ Pathlib.str (output_db a)))
       (fun _ => bind (connect (output_db a))
                      (fun conn => try_finally (seed bc conn) (close conn))) w
  = (w', r) ->
  stderr w' = stderr w /\
  stdout w' = stdout w ++ [ "Creating seed database: " +:+ Pathlib.str (output_db a) ] /\
  (forall q b, fs w !! q = Some (Dir b) -> fs w' !! q = Some (Dir b)) /\
  (forall q, q <> output_db a -> q <> journal (output_db a) ->
             fs w' !! q = fs w !! q) /\
  (fs w' !! output_db a = fs w !! output_db a \/
   exists d, fs w' !! output_db a = Some (File true (Sqlite d))) /\
  (fs w' !! journal (output_db a) = fs w !! journal (output_db a) \/
   fs w' !! journal (output_db a) = None \/
   fs w' !! journal (output_db a) = Some (File true Journal)) /\
  ((connections w' = connections w /\ exists e, r = Raise e)
   \/ (connections w' = connections w ++ [None] /\
       forall k, r = Ok k ->
                 k = BOOTSTRAP_API_KEY_ID +:+ "." +:+ BOOTSTRAP_API_KEY_TOKEN)).
Proof.
  intros Hdb H. erewrite bind_ok in H by apply print_run.
  unfold bind at 1 in H. unfold connect in H. simpl in H.
  destruct (is_memory (output_db a)) eqn:Hmem.
  - unfold open in H. simpl in H.
    apply (try_finally_changes bc None) in H
      as ((Ho & He & _ & Hd & Hf) & Hc & Hk); [| done].
    simpl in *. rewrite Hf. do 4 (split; [done |]).
    split; [by left |]. split; [by left |]. right. done.
  - destruct Hdb as [? | Hdb]; [done |]. rewrite Hdb in H.
    destruct (fs w !! Pathlib.parent (output_db a)) as [[[|]|]|] eqn:Hpar;
      simpl in H; simplify_eq; simpl;
      try (do 4 (split; [done |]); split; [by left |]; split; [by left |];
           left; split; [done | by eexists]).
    unfold open in H. simpl in H.
    apply (try_finally_changes bc (Some (output_db a))) in H
      as ((Ho & He & _ & Hd & Hf & Hfile & Hj) & Hc & Hk); [| done].
    simpl in *. do 2 (split; [done |]). split.
    { intros q b Hq. apply Hd. rewrite lookup_insert_ne; [done |]. congruence. }
    split.
    { intros q Hq1 Hq2. rewrite Hf by done. by rewrite lookup_insert_ne. }
    split.
    { right. destruct Hfile as [E | ?]; [| done].
      rewrite E, lookup_insert_eq. by eexists. }
    split.
    { by rewrite lookup_insert_ne in Hj by (symmetry; apply journal_ne). }
    right. done.
Qed.

(** [main] from the test for an old database to [conn.close()]. *)
Lemma database_part_changes bc a w w' r :
  database_part bc a w = (w', r) ->
  stderr w' = stderr w /\
  (forall q b, fs w !! q = Some (Dir b) -> fs w' !! q = Some (Dir b)) /\
  (forall q, q <> output_db a -> q <> journal (output_db a) ->
             fs w' !! q = fs w !! q) /\
  (fs w' !! output_db a = fs w !! output_db a \/
   fs w' !! output_db a = None \/
   exists d, fs w' !! output_db a = Some (File true (Sqlite d))) /\
  (fs w' !! journal (output_db a) = fs w !! journal (output_db a) \/
   fs w' !! journal (output_db a) = None \/
   fs w' !! journal (output_db a) = Some (File true Journal)) /\
  (forall k, r = Ok k ->
             k = BOOTSTRAP_API_KEY_ID +:+ "." +:+ BOOTSTRAP_API_KEY_TOKEN) /\
  ((w' = w /\ exists e, r = Raise e)
   \/ (stdout w' = stdout w
                   ++ ["Creating seed database: " +:+ Pathlib.str (output_db a)] /\
       ((connections w' = connections w /\ exists e, r = Raise e)
        \/ connections w' = connections w ++ [None]))).
Proof.
  intros H. unfold database_part in H.
  erewrite bind_ok in H by apply exists_run.
  destruct (fs w !! output_db a) as [[b|b c]|] eqn:Hdb.
  - (* a directory: [unlink] raises *)
    rewrite bool_decide_eq_true_2 in H by done.
    erewrite bind_raise in H
      by (unfold Pathlib.unlink; rewrite Hdb; reflexivity).
    simplify_eq. do 3 (split; [done |]).
    split; [by left |]. split; [by left |]. split; [done |].
    left. split; [done | by eexists].
  - rewrite bool_decide_eq_true_2 in H by done.
    destruct (fs w !! Pathlib.parent (output_db a)) as [[[|]|]|] eqn:Hpar.
    2-4: erewrite bind_raise in H
      by (unfold Pathlib.unlink; rewrite Hdb, Hpar; reflexivity);
      simplify_eq; do 3 (split; [done |]);
      split; [by left |]; split; [by left |]; split; [done |];
      left; split; [done | by eexists].
    erewrite bind_ok in H by (by eapply unlink_file).
    apply session_changes in H as (He & Ho & Hd & Hf & Hfile & Hj & Hc);
      [| right; simpl; by rewrite lookup_delete_eq].
    simpl in *. split; [done |]. split.
    { intros q b' Hq. apply Hd. rewrite lookup_delete_ne; [done |]. congruence. }
    split.
    { intros q Hq1 Hq2. rewrite Hf by done. by rewrite lookup_delete_ne. }
    split.
    { rewrite lookup_delete_eq in Hfile.
      destruct Hfile as [? | ?]; [right; by left | right; by right]. }
    split.
    { by rewrite lookup_delete_ne in Hj by (symmetry; apply journal_ne). }
    split; [destruct Hc as [(_ & e & ->) | (_ & Hk)]; done |].
    right. split; [done |].
    destruct Hc as [(Hc & Hr) | (Hc & _)]; [left | right]; done.
  - rewrite bool_decide_eq_false_2 in H by (intros [? ?]; done).
    rewrite bind_ret in H.
    apply session_changes in H as (He & Ho & Hd & Hf & Hfile & Hj & Hc);
      [| by right].
    do 3 (split; [done |]). split.
    { destruct Hfile as [? | ?]; [left; congruence | right; by right]. }
    split; [done |].
    split; [destruct Hc as [(_ & e & ->) | (_ & Hk)]; done |].
    right. split; [done |].
    destruct Hc as [(Hc & Hr) | (Hc & _)]; [left | right]; done.
Qed.

(** [main] from the second [print] on. *)
Lemma key_part_changes a k w w' r :
  key_part a k w = (w', r) ->
  stderr w' = stderr w /\ connections w' = connections w /\
  ((r = Ok 0%Z /\ stdout w' = stdout w ++ tail (progress a) /\
    fs w' = <[output_key a := File true (Plain (k +:+ newline))]> (fs w) /\
    key_ready (fs w) (output_key a) = true)
   \/ ((exists e, r = Raise e) /\ fs w' = fs w /\
       key_ready (fs w) (output_key a) = false /\
       stdout w' = stdout w ++ ["Writing bootstrap API key to: "
                                  +:+ Pathlib.str (output_key a)])).
Proof.
  intros H. destruct (key_ready (fs w) (output_key a)) eqn:Hk.
  - rewrite key_part_ok in H by done. simplify_eq. simpl.
    split; [done |]. split; [done |]. left. done.
  - destruct (key_part_blocked a k w Hk) as [e He]. rewrite He in H.
    simplify_eq. simpl.
    split; [done |]. split; [done |]. right.
    split; [by eexists | done].
Qed.

Lemma key_ready_not_dir f p b : f !! p = Some (Dir b) -> key_ready f p = false.
Proof. intros H. unfold key_ready. by rewrite H. Qed.

(** [main] once the directories are made. *)
Lemma generate_changes bc a w w' r :
  generate bc a w = (w', r) ->
  stderr w' = stderr w /\
  (connections w' = connections w \/ connections w' = connections w ++ [None]) /\
  (forall q, q <> output_db a -> q <> output_key a ->
             q <> journal (output_db a) -> fs w' !! q = fs w !! q) /\
  (forall q b, fs w !! q = Some (Dir b) -> fs w' !! q = Some (Dir b)) /\
  ((r = Ok 0%Z /\ stdout w' = stdout w ++ progress a /\
    fs w' !! output_key a = Some (File true (Plain key_file_text)))
   \/ ((exists e, r = Raise e) /\
       (exists k, k <= 2 /\ stdout w' = stdout w ++ take k (progress a)) /\
       (forall t, text_at w' (output_key a) = Some t ->
                  text_at w (output_key a) = Some t))).
Proof.
  intros H. unfold generate, bind in H.
  destruct (database_part bc a w) as [w1 r1] eqn:Hd.
  apply database_part_changes in Hd as (He & Hdir & Hf & Hat & Hj & Hkey & Hc).
  assert (Htext : forall t, text_at w1 (output_key a) = Some t ->
                            text_at w (output_key a) = Some t).
  { intros t. unfold text_at.
    destruct (decide (output_key a = output_db a)) as [E | Hne].
    { rewrite E. destruct Hat as [-> | [-> | [d ->]]]; done. }
    destruct (decide (output_key a = journal (output_db a))) as [E | Hnj].
    { rewrite E. destruct Hj as [-> | [-> | ->]]; done. }
    by rewrite Hf. }
  assert (Hconn : connections w1 = connections w \/
                  connections w1 = connections w ++ [None]).
  { destruct Hc as [(-> & _) | (_ & [(-> & _) | ->])]; auto. }
  destruct r1 as [k|e].
  - rewrite (Hkey k eq_refl) in H.
    apply key_part_changes in H as (He' & Hc' & Hk).
    split; [congruence |]. split; [by rewrite Hc' |].
    split.
    { intros q Hq1 Hq2 Hq3.
      destruct Hk as [(_ & _ & -> & _) | (_ & -> & _)].
      - rewrite lookup_insert_ne by done. by apply Hf.
      - by apply Hf. }
    split.
    { intros q b Hq. apply Hdir in Hq.
      destruct Hk as [(_ & _ & -> & Hr) | (_ & -> & _)]; [| done].
      destruct (decide (q = output_key a)) as [-> | Hq2].
      - by rewrite (key_ready_not_dir _ _ _ Hq) in Hr.
      - by rewrite lookup_insert_ne. }
    destruct Hc as [(_ & e & ?) | (Ho & Hc)]; [done |].
    destruct Hk as [(-> & Ho' & Hfs & _) | (Hr & Hfs & _ & Ho')].
    + left. split; [done |]. split.
      * rewrite Ho', Ho. unfold progress. simpl. by rewrite <- app_assoc.
      * rewrite Hfs. by rewrite lookup_insert_eq.
    + right. split; [done |]. split.
      * exists 2. split; [lia |]. rewrite Ho', Ho. simpl. by rewrite <- app_assoc.
      * intros t Ht. apply Htext. unfold text_at in *. by rewrite <- Hfs.
  - simplify_eq. split; [done |]. split; [done |].
    split; [intros q Hq _ Hq3; by apply Hf |]. split; [done |].
    right. split; [by eexists |]. split; [| done].
    destruct Hc as [(-> & _) | (Ho & _)].
    + exists 0. split; [lia |]. simpl. by rewrite app_nil_r.
    + exists 1. split; [lia |]. by rewrite Ho.
Qed.

(** The whole of [main]. *)
Lemma main_changes bc a w w' r :
  main bc a w = (w', r) ->
  stderr w' = stderr w /\
  (connections w' = connections w \/ connections w' = connections w ++ [None]) /\
  (forall q, q <> output_db a -> q <> output_key a ->
             q <> journal (output_db a) ->
             fs w' !! q = fs w !! q \/
             (fs w !! q = None /\ fs w' !! q = Some (Dir true) /\
              (q `prefix_of` Pathlib.parent (output_db a) \/
               q `prefix_of` Pathlib.parent (output_key a)))) /\
  (forall q b, fs w !! q = Some (Dir b) -> fs w' !! q = Some (Dir b)) /\
  ((r = Ok 0%Z /\ stdout w' = stdout w ++ progress a /\
    fs w' !! output_key a = Some (File true (Plain key_file_text)))
   \/ ((exists e, r = Raise e) /\
       (exists k, k <= 2 /\ stdout w' = stdout w ++ take k (progress a)) /\
       (forall t, text_at w' (output_key a) = Some t ->
                  text_at w (output_key a) = Some t))).
Proof.
  intros H. rewrite main_parts in H. unfold bind in H.
  destruct (make_dirs a w) as [w1 [[]|e]] eqn:Hm;
    pose proof (make_dirs_adds _ _ _ _ Hm) as Hadd;
    pose proof Hadd as ((Ho & He & Hc) & Hf).
  - apply generate_changes in H as (He' & Hc' & Hf' & Hd' & Hr).
    split; [congruence |]. split; [by rewrite <- Hc |]. split.
    { intros q Hq1 Hq2 Hq3. rewrite Hf' by done. apply Hf. }
    split.
    { intros q b Hq. apply Hd'. by eapply dirs_added_keeps. }
    destruct Hr as [(-> & Ho' & Hk) | (Hr & (k & Hk & Ho') & Ht)].
    + left. by rewrite <- Ho.
    + right. split; [done |]. split; [exists k; by rewrite <- Ho |].
      intros t Ht'. apply Ht in Ht'. unfold text_at in *.
      destruct (fs w1 !! output_key a) as [[b|b [s| |]]|] eqn:E; try done.
      apply (dirs_added_files _ _ _ _ _ _ Hadd) in E. by rewrite E.
  - simplify_eq. split; [done |]. split; [by left |].
    split; [intros q _ _ _; apply Hf |].
    split; [intros q b Hq; by eapply dirs_added_keeps |].
    right. split; [by eexists |]. split.
    + exists 0. split; [lia |]. simpl. by rewrite app_nil_r.
    + intros t Ht'. unfold text_at in *.
      destruct (fs w' !! output_key a) as [[b|b [s| |]]|] eqn:E; try done.
      apply (dirs_added_files _ _ _ _ _ _ Hadd) in E. by rewrite E.
Qed.

(** The process, from [main]. *)
Lemma script_cases imported a w w' st :
  script imported a w = (w', st) ->
  (imported = None /\ st = 1%Z /\ fs w' = fs w /\ stdout w' = stdout w /\
   connections w' = connections w)
  \/ (exists bc w0 r,
        imported = Some bc /\ main bc a w = (w0, r) /\
        fs w' = fs w0 /\ stdout w' = stdout w0 /\
        connections w' = connections w0 /\
        (r = Ok st \/ (st = 1%Z /\ exists e, r = Raise e))).
Proof.
  intros H. destruct imported as [bc|]; unfold script in H.
  - right. destruct (main bc a w) as [w0 [s|e]] eqn:Hm; simpl in H; simplify_eq.
    + exists bc, w', (Ok st). do 5 (split; [done |]). by left.
    + eexists bc, _, (Raise e). do 5 (split; [done |]). right.
      split; [done | by eexists].
  - left. simpl in H. by simplify_eq.
Qed.

Lemma script_raises bc a w w' e :
  main bc a w = (w', Raise e) ->
  exists w'', script (Some bc) a w = (w'', 1%Z) /\ fs w'' = fs w'.
Proof. intros H. unfold script. rewrite H. by eexists. Qed.

Lemma main_stderr bc a w w' r : main bc a w = (w', r) -> stderr w' = stderr w.
Proof. intros H. by apply main_changes in H as (? & _). Qed.

Lemma script_stderr bc a w w' st :
  script (Some bc) a w = (w', st) ->
  stderr w' = stderr w \/
  exists e, stderr w' = stderr w ++ ["Traceback (most recent call last): " +:+ exn_name e].
Proof.
  unfold script, eprint. destruct (main bc a w) as [w1 [s|e]] eqn:Hm;
    apply main_stderr in Hm; intros H; simplify_eq.
  - by left.
  - right. exists e. simpl. by rewrite Hm.
Qed.

(** * What a run that goes through has found *)

Lemma insert_bootstrap_api_key_needs_hash bc conn w w' k :
  insert_bootstrap_api_key bc conn w = (w', Ok k) -> bcrypt_works bc = true.
Proof.
  unfold insert_bootstrap_api_key, bcrypt_works, bind, lift.
  destruct (hashpw bc (Utf8.encode BOOTSTRAP_API_KEY_TOKEN) (gensalt bc 10))
    as [h|e]; [| done].
  unfold Utf8.decode.
  destruct (Utf8.valid h); [| done].
  destruct (Utf8.valid (gensalt bc 10)); done.
Qed.

Lemma seed_needs_hash bc conn w w' k :
  seed bc conn w = (w', Ok k) -> bcrypt_works bc = true.
Proof.
  unfold seed, bind, ret. intros H.
  destruct (create_tables conn w) as [w1 [[]|?]]; [| done].
  destruct (insert_onboarding_complete conn w1) as [w2 [[]|?]]; [| done].
  destruct (insert_service_user conn w2) as [w3 [[]|?]]; [| done].
  destruct (insert_bootstrap_api_key bc conn w3) as [w4 [k'|?]] eqn:Hk; [| done].
  by eapply insert_bootstrap_api_key_needs_hash.
Qed.

(** On a file that cannot be written the first statement raises. *)
Lemma seed_unwritable bc conn p w :
  sees w conn p [] -> can_write (fs w) p = false ->
  seed bc conn w = (w, Raise OperationalError).
Proof.
  intros Hs Hcw. unfold seed, create_tables.
  erewrite bind_raise; [reflexivity |].
  erewrite bind_raise; [reflexivity |].
  unfold execute, sees in *. rewrite Hs. simpl. rewrite Hcw. simpl.
  by rewrite set_connection_same.
Qed.

(** The [try] block on a fresh file, whatever it does. *)
Lemma fresh_session_success bc p w w1 k :
  is_memory p = false ->
  fs w !! p = None ->
  bind (connect p) (fun conn => try_finally (seed bc conn) (close conn)) w
  = (w1, Ok k) ->
  fs w !! Pathlib.parent p = Some (Dir true) /\
  not_a_directory (fs w) (journal p) = true /\ bcrypt_works bc = true.
Proof.
  intros Hmem Hp H. unfold bind at 1 in H. unfold connect in H.
  rewrite Hmem, Hp in H.
  destruct (fs w !! Pathlib.parent p) as [[[|]|]|] eqn:Hpar; try done.
  unfold open in H. simpl in H.
  match type of H with
  | try_finally ?body _ ?w0 = _ => destruct (body w0) as [w4 r4] eqn:Hbody
  end.
  erewrite try_finally_close in H by exact Hbody. simplify_eq.
  split; [done |]. split; [| by eapply seed_needs_hash].
  destruct (not_a_directory (fs w) (journal p)) eqn:Hj; [done |].
  erewrite seed_unwritable in Hbody; [done | |].
  - unfold sees. simpl. by apply list_lookup_middle.
  - simpl. unfold can_write, not_a_directory in *.
    rewrite lookup_insert_eq.
    rewrite lookup_insert_ne by congruence. rewrite Hpar.
    rewrite lookup_insert_ne by (symmetry; apply journal_ne).
    by destruct (fs w !! journal p) as [[|]|].
Qed.

Lemma database_part_success bc a w w1 k :
  is_memory (output_db a) = false ->
  database_part bc a w = (w1, Ok k) ->
  db_ready (fs w) (output_db a) = true /\ bcrypt_works bc = true.
Proof.
  intros Hmem H. unfold database_part in H.
  erewrite bind_ok in H by apply exists_run.
  destruct (fs w !! output_db a) as [[b|b c]|] eqn:Hdb.
  - rewrite bool_decide_eq_true_2 in H by done.
    erewrite bind_raise in H
      by (unfold Pathlib.unlink; rewrite Hdb; reflexivity).
    done.
  - rewrite bool_decide_eq_true_2 in H by done.
    destruct (fs w !! Pathlib.parent (output_db a)) as [[[|]|]|] eqn:Hpar.
    2-4: erewrite bind_raise in H
      by (unfold Pathlib.unlink; rewrite Hdb, Hpar; reflexivity); done.
    erewrite bind_ok in H by (by eapply unlink_file).
    erewrite bind_ok in H by apply print_run.
    apply fresh_session_success in H as (_ & Hj & Hbc);
      [| done | simpl; by rewrite lookup_delete_eq].
    split; [| done]. apply db_ready_intro; try done.
    + unfold not_a_directory. by rewrite Hdb.
    + unfold not_a_directory in *. simpl in Hj.
      by rewrite lookup_delete_ne in Hj by (symmetry; apply journal_ne).
  - rewrite bool_decide_eq_false_2 in H by (intros [? ?]; done).
    rewrite bind_ret in H.
    erewrite bind_ok in H by apply print_run.
    apply fresh_session_success in H as (Hpar & Hj & Hbc); [| done | done].
    split; [| done]. apply db_ready_intro; try done.
    unfold not_a_directory. by rewrite Hdb.
Qed.

(** A run that returns, on a database file: its outcome. *)
Lemma generate_success bc a w w' st :
  is_memory (output_db a) = false ->
  generate bc a w = (w', Ok st) ->
  st = 0%Z /\ bcrypt_works bc = true /\
  db_ready (fs w) (output_db a) = true /\
  key_ready (fs (seeded bc a w)) (output_key a) = true /\
  w' = finished bc a w w.
Proof.
  intros Hmem H. unfold generate, bind in H.
  destruct (database_part bc a w) as [w1 [k|e]] eqn:Hd; [| done].
  destruct (database_part_success _ _ _ _ _ Hmem Hd) as [Hdb Hbc].
  rewrite database_part_ok in Hd by done. simplify_eq.
  destruct (key_ready (fs (seeded bc a w)) (output_key a)) eqn:Hk.
  - rewrite key_part_ok in H by done. simplify_eq.
    do 4 (split; [done |]). unfold finished. simpl. by rewrite <- app_assoc.
  - destruct (key_part_blocked a
                (BOOTSTRAP_API_KEY_ID +:+ "." +:+ BOOTSTRAP_API_KEY_TOKEN)
                (seeded bc a w) Hk) as [e He].
    congruence.
Qed.

(** A run that ends with status 0, on a database file, has made the
    directories and left the two outputs over them. *)
Lemma main_success bc a w w' st :
  is_memory (output_db a) = false ->
  main bc a w = (w', Ok st) ->
  st = 0%Z /\ bcrypt_works bc = true /\
  exists w1, dirs_added a w w1 /\
             db_ready (fs w1) (output_db a) = true /\
             key_ready (fs (seeded bc a w1)) (output_key a) = true /\
             w' = finished bc a w w1.
Proof.
  intros Hmem. rewrite main_parts. unfold bind. intros H.
  destruct (make_dirs a w) as [w1 r1] eqn:E1.
  apply make_dirs_adds in E1 as Hd. pose proof Hd as ((Ho & He & Hc) & _).
  destruct r1 as [[]|e]; [| by simplify_eq].
  apply generate_success in H as (-> & Hbc & Hdb & Hk & ->); [| done].
  split; [done |]. split; [done |]. exists w1.
  do 3 (split; [done |]). unfold finished. by rewrite Ho, He, Hc.
Qed.

Lemma script_success bc a w w' :
  is_memory (output_db a) = false ->
  script (Some bc) a w = (w', 0%Z) ->
  bcrypt_works bc = true /\
  exists w1, dirs_added a w w1 /\
             db_ready (fs w1) (output_db a) = true /\
             key_ready (fs (seeded bc a w1)) (output_key a) = true /\
             w' = finished bc a w w1.
Proof.
  intros Hmem. unfold script.
  destruct (main bc a w) as [w1 [st|e]] eqn:Hm; [| done].
  intros H. simplify_eq. by apply main_success in Hm as (_ & ? & ?).
Qed.

(** * A database path that cannot be written *)




(** * A run in which the hashing fails *)





(** The directories are made when the database path can be written and
    the directory of the key file is there or is that of the database. *)
Lemma make_dirs_db a w :
  writable (fs w) (output_db a) = true ->
  (Pathlib.parent (output_key a) = Pathlib.parent (output_db a) \/
   exists b, fs w !! Pathlib.parent (output_key a) = Some (Dir b)) ->
  exists w1, make_dirs a w = (w1, Ok tt) /\
             adds_dirs (Pathlib.parent (output_db a)) w w1 /\
             fs w1 !! Pathlib.parent (output_db a) = Some (Dir true) /\
             fs w1 !! output_db a = fs w !! output_db a /\
             fs w1 !! journal (output_db a) = fs w !! journal (output_db a).
Proof.
  intros Hw Hk. unfold writable in Hw. apply andb_true_iff in Hw as [Hwd Hnd].
  destruct (mkdir_parents_creates _ _ _ Hwd) as (w1 & Hm & Hd).
  pose proof (mkdir_parents_adds _ _ _ _ _ _ Hm) as Ha.
  assert (Hk1 : exists b, fs w1 !! Pathlib.parent (output_key a) = Some (Dir b)).
  { destruct Hk as [-> | [b Hb]]; [by eexists |].
    exists b. by eapply adds_dirs_keeps. }
  destruct Hk1 as [b Hb].
  assert (Hsame : fs w1 !! output_db a = fs w !! output_db a).
  { eapply adds_dirs_off; [exact Ha |]. apply not_prefix_parent.
    by eapply writable_not_anchor. }
  exists w1. split; [| split; [| split; [| split]]]; try done.
  - unfold make_dirs, Pathlib.mkdir. erewrite bind_ok by exact Hm.
    by eapply mkdir_parents_existing.
  - eapply adds_dirs_off; [exact Ha |]. apply journal_not_prefix_parent.
Qed.

(** * A file that is not in the way of [mkdir] *)

Lemma os_mkdir_frame p x n w w' r :
  ~ x `prefix_of` p ->
  Pathlib.os_mkdir p w = (w', r) ->
  Pathlib.os_mkdir p (set_fs (<[x := n]> (fs w)) w)
  = (set_fs (<[x := n]> (fs w')) w', r).
Proof.
  intros Hx H.
  assert (Hp : x <> p) by (by intros ->).
  assert (Hpp : x <> Pathlib.parent p).
  { intros ->. apply Hx, parent_prefix. }
  unfold Pathlib.os_mkdir in *. simpl. rewrite !lookup_insert_ne by done.
  destruct (fs w !! p); [by simplify_eq |].
  destruct (fs w !! Pathlib.parent p) as [[[|]|]|]; simplify_eq; try done.
  f_equal. unfold set_fs. simpl. by rewrite insert_insert_ne.
Qed.

Lemma is_dir_frame p x n w :
  x <> p ->
  Pathlib.is_dir p (set_fs (<[x := n]> (fs w)) w)
  = (set_fs (<[x := n]> (fs w)) w, snd (Pathlib.is_dir p w)).
Proof.
  intros Hp. unfold Pathlib.is_dir. simpl. by rewrite lookup_insert_ne.
Qed.

Lemma mkdir_here_frame p e x n w w' r :
  ~ x `prefix_of` p ->
  Pathlib.mkdir_here p e w = (w', r) ->
  Pathlib.mkdir_here p e (set_fs (<[x := n]> (fs w)) w)
  = (set_fs (<[x := n]> (fs w')) w', r).
Proof.
  intros Hx H.
  assert (Hp : x <> p) by (by intros ->).
  unfold Pathlib.mkdir_here in *.
  destruct (Pathlib.os_mkdir p w) as [w1 r1] eqn:E.
  rewrite (os_mkdir_frame _ _ n _ _ _ Hx E).
  destruct r1 as [[]|e1]; [by simplify_eq |].
  destruct e1; simplify_eq; try done;
    rewrite is_dir_frame by done; unfold Pathlib.is_dir in *; simpl in *;
    destruct (fs w1 !! p) as [[|]|]; destruct e; by simplify_eq.
Qed.

Lemma mkdir_parents_frame d : forall p e x n w w' r,
  ~ x `prefix_of` p ->
  Pathlib.mkdir_parents d p e w = (w', r) ->
  Pathlib.mkdir_parents d p e (set_fs (<[x := n]> (fs w)) w)
  = (set_fs (<[x := n]> (fs w')) w', r).
Proof.
  induction d as [|d IH]; intros p e x n w w' r Hx H;
    assert (Hp : x <> p) by (by intros ->);
    assert (Hpp : ~ x `prefix_of` Pathlib.parent p)
      by (intros Hpre; by apply Hx, prefix_parent);
    simpl in *;
    destruct (Pathlib.os_mkdir p w) as [w1 r1] eqn:E;
    rewrite (os_mkdir_frame _ _ n _ _ _ Hx E);
    (destruct r1 as [[]|e1]; [by simplify_eq |]).
  - destruct e1; simplify_eq; try done;
      try (unfold Pathlib.is_dir in *; simpl in *;
           rewrite lookup_insert_ne by done;
           destruct (fs w1 !! p) as [[|]|]; destruct e; by simplify_eq).
    case_bool_decide; by simplify_eq.
  - destruct e1; simplify_eq; try done;
      try (unfold Pathlib.is_dir in *; simpl in *;
           rewrite lookup_insert_ne by done;
           destruct (fs w1 !! p) as [[|]|]; destruct e; by simplify_eq).
    case_bool_decide; [by simplify_eq |].
    destruct (Pathlib.mkdir_parents d (Pathlib.parent p) true w1)
      as [w2 r2] eqn:E2.
    rewrite (IH _ _ _ n _ _ _ Hpp E2).
    destruct r2 as [[]|e2]; [| by simplify_eq].
    by apply mkdir_here_frame.
Qed.

Lemma make_dirs_frame a x n w w' r :
  ~ x `prefix_of` Pathlib.parent (output_db a) ->
  ~ x `prefix_of` Pathlib.parent (output_key a) ->
  make_dirs a w = (w', r) ->
  make_dirs a (set_fs (<[x := n]> (fs w)) w)
  = (set_fs (<[x := n]> (fs w')) w', r).
Proof.
  intros Hd Hk H. unfold make_dirs, Pathlib.mkdir, bind in *.
  destruct (Pathlib.mkdir_parents _ (Pathlib.parent (output_db a)) true w)
    as [w1 r1] eqn:E.
  rewrite (mkdir_parents_frame _ _ _ _ n _ _ _ Hd E).
  destruct r1 as [[]|e1]; [| by simplify_eq].
  by apply mkdir_parents_frame.
Qed.

(** * A directory in the place of the journal *)

Lemma session_unwritable bc p w bj :
  is_memory p = false ->
  fs w !! p = None -> fs w !! Pathlib.parent p = Some (Dir true) ->
  fs w !! journal p = Some (Dir bj) ->
  bind (connect p) (fun conn => try_finally (seed bc conn) (close conn)) w
  = (World (<[p := File true (Sqlite [])]> (fs w))
           (stdout w) (stderr w) (connections w ++ [None]),
     Raise OperationalError).
Proof.
  intros Hmem Hp Hpar Hj. erewrite bind_ok by (by apply connect_fresh).
  erewrite try_finally_close.
  2:{ eapply seed_unwritable.
      - unfold sees. simpl. by apply list_lookup_middle.
      - simpl. unfold can_write. rewrite lookup_insert_eq.
        rewrite lookup_insert_ne by congruence. rewrite Hpar.
        rewrite lookup_insert_ne by (symmetry; apply journal_ne).
        by rewrite Hj. }
  erewrite close_idle.
  2:{ simpl. by apply list_lookup_middle. }
  2:{ by left. }
  f_equal. unfold set_connection. simpl. f_equal. apply insert_end.
Qed.

Lemma database_part_unwritable bc a w bj :
  is_memory (output_db a) = false ->
  not_a_directory (fs w) (output_db a) = true ->
  fs w !! Pathlib.parent (output_db a) = Some (Dir true) ->
  fs w !! journal (output_db a) = Some (Dir bj) ->
  database_part bc a w
  = (World (<[output_db a := File true (Sqlite [])]> (fs w))
           (stdout w ++ ["Creating seed database: "
                           +:+ Pathlib.str (output_db a)])
           (stderr w) (connections w ++ [None]),
     Raise OperationalError).
Proof.
  intros Hmem Hnd Hpar Hj. unfold database_part.
  erewrite bind_ok by apply exists_run.
  unfold not_a_directory in Hnd.
  destruct (fs w !! output_db a) as [[b|b c]|] eqn:Ep; [done | |].
  - rewrite bool_decide_eq_true_2 by eauto.
    erewrite bind_ok by (by eapply unlink_file).
    erewrite bind_ok by apply print_run.
    assert (Hne : output_db a <> Pathlib.parent (output_db a)) by congruence.
    erewrite session_unwritable; simpl;
      [| done | by rewrite lookup_delete_eq | by rewrite lookup_delete_ne
       | by rewrite lookup_delete_ne by (symmetry; apply journal_ne)].
    by rewrite insert_delete_eq.
  - rewrite bool_decide_eq_false_2 by (by intros [? ?]).
    rewrite bind_ret.
    erewrite bind_ok by apply print_run.
    by erewrite session_unwritable.
Qed.

(** * A database in memory *)

Lemma sees_memory_holds conn db0 db w :
  sees_memory w conn db0 -> sees_memory (holds conn db w) conn db.
Proof.
  unfold sees_memory, holds. simpl. intros H.
  apply list_lookup_insert_eq. by eapply lookup_lt_Some.
Qed.

Lemma holds_holds conn db db' w :
  holds conn db' (holds conn db w) = holds conn db' w.
Proof.
  unfold holds, set_connection. simpl. by rewrite list_insert_insert_eq.
Qed.

Lemma execute_create_memory st conn db db' w :
  sees_memory w conn db ->
  is_dml st = false -> writes st db = true ->
  exec st [] db = Ok db' ->
  execute st [] conn w = (holds conn db' w, Ok tt).
Proof.
  unfold sees_memory, execute. intros -> Hd Hw ->. by rewrite Hw, Hd.
Qed.

Lemma commit_memory conn db w :
  sees_memory w conn db -> commit conn w = (w, Ok tt).
Proof.
  unfold sees_memory, commit. intros H. rewrite H. simpl.
  by rewrite set_connection_same.
Qed.

Lemma execute_commit_memory st ps conn db db' w :
  sees_memory w conn db ->
  is_dml st = true -> exec st ps db = Ok db' ->
  bind (execute st ps conn) (fun _ => commit conn) w = (holds conn db' w, Ok tt).
Proof.
  unfold sees_memory. intros Hs Hd He.
  assert (Hw : writes st db = true) by (by destruct st).
  unfold bind, execute. rewrite Hs, He, Hw, Hd. simpl.
  unfold commit. simpl. rewrite list_lookup_insert_eq by (by eapply lookup_lt_Some).
  unfold holds, set_connection. simpl. by rewrite list_insert_insert_eq.
Qed.

Lemma execute_twice_commit_memory st1 ps1 st2 ps2 conn db db1 db2 w :
  sees_memory w conn db ->
  is_dml st1 = true -> exec st1 ps1 db = Ok db1 ->
  is_dml st2 = true -> exec st2 ps2 db1 = Ok db2 ->
  bind (execute st1 ps1 conn)
       (fun _ => bind (execute st2 ps2 conn) (fun _ => commit conn)) w
  = (holds conn db2 w, Ok tt).
Proof.
  unfold sees_memory. intros Hs Hd1 He1 Hd2 He2.
  assert (Hw1 : writes st1 db = true) by (by destruct st1).
  assert (Hw2 : writes st2 db1 = true) by (by destruct st2).
  assert (Hlt : conn < length (connections w)) by (by eapply lookup_lt_Some).
  unfold bind at 1. unfold execute at 1. rewrite Hs, He1, Hw1, Hd1. simpl.
  unfold bind, execute. simpl. rewrite list_lookup_insert_eq by done.
  rewrite He2, Hw2, Hd2. simpl.
  unfold commit. simpl.
  rewrite list_lookup_insert_eq by (by rewrite length_insert).
  unfold holds, set_connection. simpl. by rewrite !list_insert_insert_eq.
Qed.

Lemma seed_memory bc conn w :
  sees_memory w conn [] -> bcrypt_works bc = true ->
  seed bc conn w =
  (holds conn (seed_database (stored_hash bc) (stored_salt bc)) w,
   Ok (BOOTSTRAP_API_KEY_ID +:+ "." +:+ BOOTSTRAP_API_KEY_TOKEN)).
Proof.
  intros Hs Hb. unfold seed, create_tables.
  erewrite bind_ok.
  2:{ erewrite bind_ok by (by eapply execute_create_memory).
      erewrite bind_ok
        by (eapply execute_create_memory; eauto using sees_memory_holds).
      erewrite bind_ok
        by (eapply execute_create_memory; eauto using sees_memory_holds).
      erewrite bind_ok
        by (eapply execute_create_memory; eauto 6 using sees_memory_holds).
      rewrite !holds_holds.
      eapply commit_memory. by eapply sees_memory_holds. }
  erewrite bind_ok
    by (eapply execute_commit_memory; eauto using sees_memory_holds).
  erewrite bind_ok
    by (eapply execute_commit_memory; eauto using sees_memory_holds).
  rewrite !holds_holds.
  unfold bcrypt_works in Hb. unfold stored_hash, stored_salt.
  unfold insert_bootstrap_api_key.
  destruct (hashpw bc (Utf8.encode BOOTSTRAP_API_KEY_TOKEN) (gensalt bc 10))
    as [h|e] eqn:Eh; [| done].
  apply andb_true_iff in Hb as [Hvh Hvs].
  erewrite bind_ok.
  2:{ erewrite bind_ok by reflexivity.
      rewrite (decode_valid _ Hvh). erewrite bind_ok by reflexivity.
      rewrite (decode_valid _ Hvs). erewrite bind_ok by reflexivity.
      rewrite <- bind_assoc.
      erewrite bind_ok
        by (eapply execute_commit_memory; eauto using sees_memory_holds).
      reflexivity. }
  erewrite bind_ok
    by (eapply execute_twice_commit_memory; eauto using sees_memory_holds).
  rewrite !holds_holds. reflexivity.
Qed.

Lemma session_memory_ok bc p w :
  is_memory p = true -> bcrypt_works bc = true ->
  bind (connect p) (fun conn => try_finally (seed bc conn) (close conn)) w =
  (World (fs w) (stdout w) (stderr w) (connections w ++ [None]),
   Ok (BOOTSTRAP_API_KEY_ID +:+ "." +:+ BOOTSTRAP_API_KEY_TOKEN)).
Proof.
  intros Hmem Hbc. unfold bind at 1. unfold connect. rewrite Hmem.
  unfold open. simpl.
  erewrite try_finally_close.
  2:{ eapply seed_memory; [| done].
      unfold sees_memory. simpl. by apply list_lookup_middle. }
  erewrite close_idle.
  2:{ unfold holds. simpl. apply list_lookup_insert_eq.
      rewrite length_app. simpl. lia. }
  2:{ by right. }
  f_equal. unfold set_connection, holds. simpl. f_equal.
  rewrite list_insert_insert_eq. apply insert_end.
Qed.

(** The statements on a connection in memory change no file. *)
Lemma session_memory bc a w w' r :
  is_memory (output_db a) = true ->
  bind (connect (output_db a))
       (fun conn => try_finally (seed bc conn) (close conn)) w = (w', r) ->
  fs w' = fs w.
Proof.
  intros Hmem H. unfold bind at 1 in H. unfold connect in H.
  rewrite Hmem in H. unfold open in H. simpl in H.
  apply (try_finally_changes bc None) in H as ((_ & _ & _ & _ & Hf) & _);
    [| done].
  exact Hf.
Qed.

Lemma database_part_memory bc a w w' r :
  is_memory (output_db a) = true ->
  database_part bc a w = (w', r) ->
  forall q, fs w' !! q = fs w !! q \/ fs w' !! q = None.
Proof.
  intros Hmem H q. unfold database_part in H.
  erewrite bind_ok in H by apply exists_run.
  destruct (bool_decide (is_Some (fs w !! output_db a))).
  - unfold bind at 1 in H.
    destruct (Pathlib.unlink (output_db a) w) as [w1 [[]|e]] eqn:Hu.
    + erewrite bind_ok in H by apply print_run.
      apply session_memory in H; [| done]. simpl in H. rewrite H.
      unfold Pathlib.unlink in Hu.
      destruct (fs w !! output_db a) as [[|]|]; try done.
      destruct (fs w !! Pathlib.parent (output_db a)) as [[[|]|]|];
        simplify_eq. simpl.
      destruct (decide (q = output_db a)) as [-> | Hq].
      * right. by rewrite lookup_delete_eq.
      * left. by rewrite lookup_delete_ne.
    + simplify_eq. left. unfold Pathlib.unlink in Hu.
      destruct (fs w !! output_db a) as [[|]|]; simplify_eq; try done.
      destruct (fs w !! Pathlib.parent (output_db a)) as [[[|]|]|];
        by simplify_eq.
  - rewrite bind_ret in H.
    erewrite bind_ok in H by apply print_run.
    apply session_memory in H; [| done]. left. by rewrite H.
Qed.

(** * Rows that are there already *)








(** * The statements of the script on the tables of the script *)














(** * Properties of a run *)




(** A successful run whose database path is a file other than the key
    file leaves the seeded database there and the key text at the key
    path. *)
Lemma script_leaves_outputs bc a w w' :
  is_memory (output_db a) = false ->
  output_db a <> output_key a ->
  script (Some bc) a w = (w', 0%Z) ->
  bcrypt_works bc = true /\
  text_at w' (output_key a) = Some key_file_text /\
  database_at w' (output_db a)
  = Some (seed_database (stored_hash bc) (stored_salt bc)).
Proof.
  intros Hmem Hne H.
  apply script_success in H as (Hbc & w1 & _ & _ & _ & ->); [| done].
  split; [done |]. split.
  - unfold text_at. simpl. by rewrite outputs_key.
  - by apply database_at_outputs.
Qed.

(** What can be said of the stored hash without opening the library: after
    a successful run the only row of apiKey holds, as text, the salt the
    library drew and the hash it computed from the token with that salt, so
    hashing the token again with the stored salt gives the stored hash. *)
Lemma stored_hash_verifies bc a w w' :
  is_memory (output_db a) = false ->
  output_db a <> output_key a ->
  script (Some bc) a w = (w', 0%Z) ->
  exists d,
    database_at w' (output_db a) = Some d /\
    rows d "apiKey" = Some (apiKey_rows (stored_hash bc) (stored_salt bc)) /\
    hashpw bc (Utf8.encode BOOTSTRAP_API_KEY_TOKEN) (Utf8.encode (stored_salt bc))
    = Ok (Utf8.encode (stored_hash bc)) /\
    verify bc BOOTSTRAP_API_KEY_TOKEN (stored_salt bc) (stored_hash bc) = true.
Proof.
  intros Hmem Hne H.
  apply script_leaves_outputs in H as (Hbc & _ & Hd); [| done | done].
  eexists. split; [exact Hd |]. split; [reflexivity |].
  unfold bcrypt_works in Hbc. unfold verify, stored_hash, stored_salt.
  rewrite !encode_decoded.
  destruct (hashpw bc (Utf8.encode BOOTSTRAP_API_KEY_TOKEN) (gensalt bc 10))
    as [h|e]; [| done].
  rewrite encode_decoded. split; [done |]. by rewrite bool_decide_eq_true_2.
Qed.











(** C7.  When the hashing library cannot be imported, the script prints one
    line on the error stream, which carries the installation hint, ends with
    status 1, and leaves the files and the standard output as they were;
    no run in which the library is there leaves the error stream in that
    state. *)
Theorem missing_bcrypt_reported a w :
  exists w' st,
    script None a w = (w', st) /\ st <> 0%Z /\
    fs w' = fs w /\ stdout w' = stdout w /\
    stderr w' = stderr w ++ [import_error_message] /\
    (exists before,
        import_error_message = before +:+ "Install with: pip install bcrypt") /\
    (forall bc w2 st2,
        script (Some bc) a w = (w2, st2) -> stderr w2 <> stderr w').
Proof.
  eexists _, _. split; [reflexivity |]. split; [done |].
  do 3 (split; [reflexivity |]). split.
  - by exists "Error: bcrypt module not found. ".
  - intros bc w2 st2 H. simpl.
    apply script_stderr in H as [-> | [e ->]]; intros E.
    + apply (f_equal length) in E. rewrite length_app in E. simpl in E. lia.
    + apply app_inv_head in E. by destruct e.
Qed.




(** C9.  Neither the credential identifier nor the plaintext token holds a
    [.]; so the key string that [insert_bootstrap_api_key] returns, split at
    its first [.], gives back the identifier and the token, and the text of
    the key file gives back the identifier and the token with the newline. *)
Theorem credential_round_trip :
  has_dot BOOTSTRAP_API_KEY_ID = false /\
  has_dot BOOTSTRAP_API_KEY_TOKEN = false /\
  partition_dot (BOOTSTRAP_API_KEY_ID +:+ "." +:+ BOOTSTRAP_API_KEY_TOKEN)
  = Some (BOOTSTRAP_API_KEY_ID, BOOTSTRAP_API_KEY_TOKEN) /\
  (forall bc conn w w' key,
      insert_bootstrap_api_key bc conn w = (w', Ok key) ->
      partition_dot key = Some (BOOTSTRAP_API_KEY_ID, BOOTSTRAP_API_KEY_TOKEN)) /\
  partition_dot key_file_text
  = Some (BOOTSTRAP_API_KEY_ID, BOOTSTRAP_API_KEY_TOKEN +:+ newline).
Proof.
  assert (Hid : has_dot BOOTSTRAP_API_KEY_ID = false) by reflexivity.
  split; [exact Hid |]. split; [reflexivity |].
  split; [by apply partition_dot_join |]. split.
  - intros bc conn w w' key H.
    apply insert_bootstrap_api_key_returns in H as ->.
    by apply partition_dot_join.
  - by apply (partition_dot_join BOOTSTRAP_API_KEY_ID).
Qed.
















(** * Further properties of the code *)

(** X7.  However [main] ends, by returning or by raising, it leaves no
    connection open: the connection objects are those there were before,
    or those and one more, which is closed. *)
Theorem main_closes_connection bc a w w' r :
  main bc a w = (w', r) ->
  connections w' = connections w \/ connections w' = connections w ++ [None].
Proof. intros H. by apply main_changes in H as (_ & H & _). Qed.

(** The theorem at an example. *)
Lemma main_closes_connection_witness :
  exists w' e,
    main failing_bcrypt default_args example_world = (w', Raise e) /\
    (connections w' = connections example_world \/
     connections w' = connections example_world ++ [None]).
Proof.
  eexists _, _. split; [vm_compute; reflexivity |].
  eapply (main_closes_connection failing_bcrypt default_args example_world).
  vm_compute; reflexivity.
Defined.













(** What lies at the database path is removed before anything is made
    there. *)
Lemma database_part_old_file bc a w b c :
  fs w !! Pathlib.parent (output_db a) = Some (Dir true) ->
  not_a_directory (fs w) (output_db a) = true ->
  database_part bc a (set_fs (<[output_db a := File b c]> (fs w)) w)
  = database_part bc a w.
Proof.
  intros Hpar Hnd.
  assert (Hne : output_db a <> Pathlib.parent (output_db a)).
  { intros E. unfold not_a_directory in Hnd. by rewrite E, Hpar in Hnd. }
  unfold database_part.
  erewrite bind_ok by apply exists_run. simpl.
  rewrite lookup_insert_eq. rewrite bool_decide_eq_true_2 by done.
  erewrite bind_ok.
  2:{ eapply unlink_file; simpl; [by rewrite lookup_insert_eq |].
      by rewrite lookup_insert_ne by done. }
  simpl. rewrite delete_insert_eq.
  erewrite (bind_ok (Pathlib.exists_ (output_db a)) _ w) by apply exists_run.
  unfold not_a_directory in Hnd.
  destruct (fs w !! output_db a) as [[b'|b' c']|] eqn:Ep; [done | |].
  - rewrite bool_decide_eq_true_2 by done.
    by erewrite (bind_ok (Pathlib.unlink (output_db a)) _ w)
      by (by eapply unlink_file).
  - rewrite bool_decide_eq_false_2 by (by intros [? ?]).
    rewrite bind_ret. rewrite delete_id by done.
    unfold set_fs. simpl. by rewrite world_eta.
Qed.

(** X14.  What lies at the database path beforehand has no part in the
    result: whatever file is put there first, be it an old database, text
    that is no database or an empty file, read-only or not, the run ends in
    the same world and with the same status as without that change.  This
    holds whenever the two directories can be made, the two paths are not
    directories and the key-file path does not lie below the database path,
    whether the hashing works or not. *)
Theorem old_database_content_ignored bc a w b c :
  writable (fs w) (output_db a) = true ->
  writable (fs w) (output_key a) = true ->
  ~ output_db a `prefix_of` output_key a ->
  script (Some bc) a (set_fs (<[output_db a := File b c]> (fs w)) w)
  = script (Some bc) a w.
Proof.
  intros Hw Hwk Hdk.
  unfold writable in Hw, Hwk.
  apply andb_true_iff in Hw as [Hwd Hnd].
  apply andb_true_iff in Hwk as [Hwkd _].
  pose proof (writable_not_anchor _ _ _ Hwd Hnd) as Hadb.
  destruct (mkdir_parents_creates _ _ _ Hwd) as (w0 & Hm0 & Hd0).
  pose proof (mkdir_parents_adds _ _ _ _ _ _ Hm0) as Ha0.
  assert (Hw1 : writable_dir (S (length (Pathlib.parent (output_key a))))
                  (fs w0) (Pathlib.parent (output_key a)) = true).
  { eapply writable_dir_mono; [| exact Hwkd].
    destruct Ha0 as (_ & H). intros q.
    destruct (H q) as [? | (? & ? & _)]; auto. }
  destruct (mkdir_parents_creates _ _ _ Hw1) as (w1 & Hm1 & Hd1).
  pose proof (mkdir_parents_adds _ _ _ _ _ _ Hm1) as Ha1.
  assert (Hm : make_dirs a w = (w1, Ok tt)).
  { unfold make_dirs, Pathlib.mkdir. erewrite bind_ok by exact Hm0. exact Hm1. }
  pose proof (make_dirs_adds _ _ _ _ Hm) as Hadd.
  pose proof (dirs_added_db _ _ _ Hadd Hadb Hdk) as Hdb.
  assert (Hpd : fs w1 !! Pathlib.parent (output_db a) = Some (Dir true)).
  { by eapply adds_dirs_keeps. }
  assert (Hm' : make_dirs a (set_fs (<[output_db a := File b c]> (fs w)) w)
                = (set_fs (<[output_db a := File b c]> (fs w1)) w1, Ok tt)).
  { apply make_dirs_frame; [| | done].
    - by apply not_prefix_parent.
    - intros Hpre. by apply Hdk, prefix_parent. }
  assert (Hmain : main bc a (set_fs (<[output_db a := File b c]> (fs w)) w)
                  = main bc a w).
  { rewrite !main_parts. erewrite !bind_ok by done.
    unfold generate, bind. rewrite database_part_old_file; [done | done |].
    unfold not_a_directory in *. by rewrite Hdb. }
  unfold script. by rewrite Hmain.
Qed.

(** The theorem at an example. *)
Lemma old_database_content_ignored_witness :
  writable (fs example_world) (output_db default_args) = true /\
  writable (fs example_world) (output_key default_args) = true /\
  ~ output_db default_args `prefix_of` output_key default_args /\
  script (Some (example_bcrypt example_salt)) default_args
         (set_fs (<[output_db default_args
                    := File false (Plain "not a database")]>
                    (fs example_world)) example_world)
  = script (Some (example_bcrypt example_salt)) default_args example_world.
Proof.
  assert (Hpre : ~ output_db default_args `prefix_of` output_key default_args).
  { intros [l Hl]. simpl in Hl. simplify_eq. }
  split; [vm_compute; reflexivity |]. split; [vm_compute; reflexivity |].
  split; [exact Hpre |].
  apply (old_database_content_ignored (example_bcrypt example_salt)
           default_args example_world false (Plain "not a database"));
    [vm_compute; reflexivity | vm_compute; reflexivity | exact Hpre].
Defined.



(** X17.  When a directory bears the name of the journal of the database
    ([<db>-journal], beside a database file that could otherwise be made),
    the run fails at the first [CREATE TABLE], whether the hashing works
    or not: it ends with status 1 having printed its first line only, and
    the database it has just made is left at the database path, empty. *)
Theorem journal_directory_blocks_seeding bc a w bj :
  plain_paths a = true ->
  is_memory (output_db a) = false ->
  writable (fs w) (output_db a) = true ->
  fs w !! journal (output_db a) = Some (Dir bj) ->
  (Pathlib.parent (output_key a) = Pathlib.parent (output_db a) \/
   exists b, fs w !! Pathlib.parent (output_key a) = Some (Dir b)) ->
  exists w',
    script (Some bc) a w = (w', 1%Z) /\
    database_at w' (output_db a) = Some [] /\
    stdout w' = stdout w ++ ["Creating seed database: "
                               +:+ Pathlib.str (output_db a)].
Proof.
  intros _ Hmem Hw Hj Hk.
  destruct (make_dirs_db a w Hw Hk) as (w1 & Hm & Ha & Hpd & Hdb & Hjn).
  assert (Hnd : not_a_directory (fs w1) (output_db a) = true).
  { unfold writable in Hw. apply andb_true_iff in Hw as [_ Hnd].
    unfold not_a_directory in *. by rewrite Hdb. }
  rewrite <- Hjn in Hj.
  destruct (script_raises bc a w
              (World (<[output_db a := File true (Sqlite [])]> (fs w1))
                     (stdout w1 ++ ["Creating seed database: "
                                      +:+ Pathlib.str (output_db a)])
                     (stderr w1) (connections w1 ++ [None]))
              OperationalError) as (w' & Hs & Hf).
  { rewrite main_parts. erewrite bind_ok by exact Hm.
    unfold generate. apply bind_raise. by eapply database_part_unwritable. }
  exists w'. split; [done |]. split.
  - unfold database_at. rewrite Hf. simpl. by rewrite lookup_insert_eq.
  - unfold script in Hs. rewrite main_parts in Hs.
    erewrite bind_ok in Hs by exact Hm. unfold generate in Hs.
    erewrite bind_raise in Hs by (by eapply database_part_unwritable).
    simpl in Hs. simplify_eq. simpl.
    destruct Ha as ((-> & _) & _). done.
Qed.

(** The theorem at an example. *)
Lemma journal_directory_blocks_seeding_witness :
  plain_paths default_args = true /\
  is_memory (output_db default_args) = false /\
  writable (fs journal_dir_world) (output_db default_args) = true /\
  fs journal_dir_world !! journal (output_db default_args)
  = Some (Dir true) /\
  exists w',
    script (Some (example_bcrypt example_salt)) default_args journal_dir_world
    = (w', 1%Z) /\
    database_at w' (output_db default_args) = Some [] /\
    stdout w' = stdout journal_dir_world
                  ++ ["Creating seed database: "
                        +:+ Pathlib.str (output_db default_args)].
Proof.
  do 4 (split; [vm_compute; reflexivity |]).
  apply (journal_directory_blocks_seeding (example_bcrypt example_salt)
           default_args journal_dir_world true);
    try (vm_compute; reflexivity).
  left. reflexivity.
Defined.

(** A database is found at a path where it was before if every database
    file there was there before. *)
Lemma database_at_back w w' q d :
  (forall b d', fs w' !! q = Some (File b (Sqlite d')) ->
                fs w !! q = Some (File b (Sqlite d'))) ->
  database_at w' q = Some d -> database_at w q = Some d.
Proof.
  unfold database_at. intros H Hq.
  destruct (fs w' !! q) as [[|b [| |]]|] eqn:E; try done.
  by rewrite (H _ _ eq_refl).
Qed.

(** X18.  With [:memory:] as the database path the run makes no database
    file, however it ends: a database found at any path afterwards was
    there before. *)
Theorem memory_database_leaves_no_file imported a w w' st :
  is_memory (output_db a) = true ->
  script imported a w = (w', st) ->
  forall q d, database_at w' q = Some d -> database_at w q = Some d.
Proof.
  intros Hmem H q d.
  apply script_cases in H
    as [(_ & _ & Hf & _) | (bc & w0 & r & _ & Hm & Hf & _)].
  { unfold database_at. by rewrite Hf. }
  intros Hq. assert (Hq0 : database_at w0 q = Some d).
  { unfold database_at in *. by rewrite <- Hf. }
  clear Hq Hf. revert Hq0. apply database_at_back. intros b d'.
  rewrite main_parts in Hm. unfold bind in Hm.
  destruct (make_dirs a w) as [w1 r1] eqn:Hd.
  apply make_dirs_adds in Hd as Hadd.
  assert (Hback : forall b c, fs w1 !! q = Some (File b c) ->
                              fs w !! q = Some (File b c)).
  { intros b' c' E. by apply (dirs_added_files _ _ _ _ _ _ Hadd) in E. }
  destruct r1 as [[]|e]; [| simplify_eq; by apply Hback].
  unfold generate, bind in Hm.
  destruct (database_part bc a w1) as [w2 r2] eqn:Hdb.
  pose proof (database_part_memory _ _ _ _ _ Hmem Hdb q) as Hq2.
  assert (Hback2 : forall b c, fs w2 !! q = Some (File b c) ->
                               fs w !! q = Some (File b c)).
  { intros b' c' E. apply Hback. destruct Hq2 as [<- | E']; congruence. }
  destruct r2 as [k|e]; [| simplify_eq; by apply Hback2].
  apply key_part_changes in Hm
    as (_ & _ & [(_ & _ & Hfs & Hr) | (_ & Hfs & _)]); rewrite Hfs;
    [| by apply Hback2].
  destruct (decide (q = output_key a)) as [-> | Hne].
  - by rewrite lookup_insert_eq.
  - rewrite lookup_insert_ne by done. by apply Hback2.
Qed.

(** The theorem at an example. *)
Lemma memory_database_leaves_no_file_witness :
  is_memory [":memory:"] = true /\
  exists w' st,
    script (Some (example_bcrypt example_salt))
           (Args [":memory:"] ["bootstrap-api-key"]) example_world = (w', st) /\
    forall q d, database_at w' q = Some d ->
                database_at example_world q = Some d.
Proof.
  split; [vm_compute; reflexivity |].
  eexists _, _. split; [vm_compute; reflexivity |].
  eapply (memory_database_leaves_no_file
            (Some (example_bcrypt example_salt))
            (Args [":memory:"] ["bootstrap-api-key"]) example_world);
    vm_compute; reflexivity.
Defined.

(** X19.  With [:memory:] as the database path, when no file bears that
    name, the working directory is there (writable or not) and the key file
    can be written, the run ends with status 0: it seeds a database in
    memory, which is lost when the connection is closed, and all it changes
    in the files is to write the key text at the key-file path. *)
Theorem memory_run bc a w b0 bk :
  is_memory (output_db a) = true ->
  plain (output_key a) = true ->
  fs w !! Pathlib.parent (output_db a) = Some (Dir b0) ->
  fs w !! output_db a = None ->
  fs w !! Pathlib.parent (output_key a) = Some (Dir bk) ->
  key_ready (fs w) (output_key a) = true ->
  bcrypt_works bc = true ->
  exists w',
    script (Some bc) a w = (w', 0%Z) /\
    fs w' = <[output_key a := File true (Plain key_file_text)]> (fs w) /\
    stdout w' = stdout w ++ progress a.
Proof.
  intros Hmem _ Hpd Hdb Hpk Hk Hbc.
  exists (World (<[output_key a := File true (Plain key_file_text)]> (fs w))
                (stdout w ++ progress a) (stderr w) (connections w ++ [None])).
  split; [| split; reflexivity].
  apply script_main. rewrite main_parts.
  erewrite bind_ok by (by eapply make_dirs_existing).
  unfold generate, database_part.
  erewrite bind_ok.
  2:{ erewrite bind_ok by apply exists_run. rewrite Hdb.
      rewrite bool_decide_eq_false_2 by (by intros [? ?]).
      rewrite bind_ret. erewrite bind_ok by apply print_run.
      by apply session_memory_ok. }
  rewrite key_part_ok by done. simpl. by rewrite <- app_assoc.
Qed.

(** The theorem at an example: a working directory that cannot be
    written. *)
Lemma memory_run_witness :
  is_memory [":memory:"] = true /\
  plain ["keys"; "bootstrap-api-key"] = true /\
  fs locked_world !! Pathlib.parent [":memory:"] = Some (Dir false) /\
  fs locked_world !! [":memory:"] = None /\
  fs locked_world !! Pathlib.parent ["keys"; "bootstrap-api-key"]
  = Some (Dir true) /\
  key_ready (fs locked_world) ["keys"; "bootstrap-api-key"] = true /\
  bcrypt_works (example_bcrypt example_salt) = true /\
  exists w',
    script (Some (example_bcrypt example_salt))
           (Args [":memory:"] ["keys"; "bootstrap-api-key"]) locked_world
    = (w', 0%Z) /\
    fs w' = <[ ["keys"; "bootstrap-api-key"]
               := File true (Plain key_file_text) ]> (fs locked_world) /\
    stdout w' = stdout locked_world
                  ++ progress (Args [":memory:"] ["keys"; "bootstrap-api-key"]).
Proof.
  do 7 (split; [vm_compute; reflexivity |]).
  apply (memory_run (example_bcrypt example_salt)
           (Args [":memory:"] ["keys"; "bootstrap-api-key"]) locked_world
           false true); vm_compute; reflexivity.
Defined.

